(** * DEX arbitrage backtesting: the opportunity detector, the trade
      simulator, the block-range runner and the summary aggregator

    A shallow embedding of
    [dex_arbitrage_backtesting/analyzer/arbitrage_analyzer.py]
    (class [ArbitrageAnalyzer]) and the properties its specification
    states about it.

    Conventions of the embedding.
    - Python numbers are exact rationals ([Q]): [+], [-], [*] are total,
      true division [/] raises [ZeroDivisionError] on a zero divisor.
      Rounding of binary floating point is not represented; where a
      bound or a threshold could hinge on it, the numbered properties
      use non-strict bounds or a margin.
    - A Python computation that may raise is a value of [outcome];
      [try: ... except Exception: ...] is [try_except].
    - The dictionaries the analyzer builds with a fixed set of keys are
      records whose fields carry the keys' names. *)

From Stdlib Require Import QArith Qabs ZArith NArith List Sorted String Bool.
From Stdlib Require Import Lia Lqa.
Import ListNotations.

Open Scope Q_scope.

(* ------------------------------------------------------------------ *)
(** * Python: exceptions, truthiness, numbers                           *)
(* ------------------------------------------------------------------ *)

Module Py.

(** The exceptions the modelled code can meet; all derive from
    [Exception], so every [except Exception] clause catches them. *)
Inductive exn : Type :=
| ZeroDivisionError
| KeyError (key : string)
| RuntimeError (msg : string).

Inductive outcome (A : Type) : Type :=
| Ret (a : A)
| Raise (e : exn).

Arguments Ret {A} a.
Arguments Raise {A} e.

Definition bind {A B} (m : outcome A) (k : A -> outcome B) : outcome B :=
  match m with
  | Ret a => k a
  | Raise e => Raise e
  end.

(** [try: body except Exception as e: handler e] *)
Definition try_except {A} (body : outcome A) (handler : exn -> outcome A)
  : outcome A :=
  match body with
  | Ret a => Ret a
  | Raise e => handler e
  end.

Definition raises {A} (m : outcome A) : Prop := exists e, m = Raise e.

(** [a / b] *)
Definition truediv (a b : Q) : outcome Q :=
  if Qeq_bool b 0 then Raise ZeroDivisionError else Ret (a / b).

(** [a == b], [a != b], [a < b], [a > b], [a >= b] on numbers *)
Definition eq (a b : Q) : bool := Qeq_bool a b.
Definition ne (a b : Q) : bool := negb (Qeq_bool a b).
Definition lt (a b : Q) : bool := negb (Qle_bool b a).
Definition gt (a b : Q) : bool := lt b a.
Definition ge (a b : Q) : bool := Qle_bool b a.

(** [x or default] where [x] is a number or [None]: [None] and zero are
    falsy. *)
Definition or_ (x : option Q) (default : Q) : Q :=
  match x with
  | None => default
  | Some v => if Qeq_bool v 0 then default else v
  end.

(** [min(a, b)]: the first argument unless the second is strictly
    smaller. *)
Definition min (a b : Q) : Q := if lt b a then b else a.

(** A dictionary with string keys: its items in insertion order.
    [d.get(key)] and [d.get(key, default)]. *)
Definition dict (V : Type) : Type := list (string * V).

Definition dict_lookup {V} (d : dict V) (key : string) : option V :=
  option_map snd (find (fun item => String.eqb key (fst item)) d).

Definition dict_get {V} (d : dict V) (key : string) (default : V) : V :=
  match dict_lookup d key with
  | Some v => v
  | None => default
  end.

(** [range(lo, hi)] *)
Definition range (lo hi : Z) : list Z :=
  map (fun k => (lo + Z.of_nat k)%Z) (seq 0 (Z.to_nat (hi - lo))).

End Py.

Import Py.

Declare Scope py_scope.
Delimit Scope py_scope with py.
Notation "x <- m ;; k" := (Py.bind m (fun x => k))
  (at level 61, m at next level, right associativity) : py_scope.
Open Scope py_scope.

(* ------------------------------------------------------------------ *)
(** * The dictionaries of the analyzer                                  *)
(* ------------------------------------------------------------------ *)

(** The result of [calculate_price_impact]. *)
Module PriceImpact.
Record t : Type := mk {
  amount_in : Q;
  amount_out : Q;
  price_before : Q;
  price_after : Q;
  price_impact : Q;
  price_impact_bps : Q
}.
End PriceImpact.

(** One row of the pool-state query of [detect_arbitrage_opportunities]:
    a pair's reserves at a block, joined with its exchange and tokens.
    Raw reserves and decimal counts are unsigned on-chain quantities. *)
Module PoolState.
Record t : Type := mk {
  pair_address : string;
  token0_address : string;
  token1_address : string;
  exchange_name : string;
  reserve0 : N;
  reserve1 : N;
  timestamp : Z;
  token0_symbol : string;
  token1_symbol : string;
  token0_decimals : N;
  token1_decimals : N
}.

(** The row after the normalisation loop has added its three keys. *)
Record normalized : Type := mk_normalized {
  row : t;
  reserve0_normalized : Q;
  reserve1_normalized : Q;
  price_token0_in_token1 : Q
}.
End PoolState.

(** The dictionary [detect_arbitrage_opportunities] appends per match. *)
Module Opportunity.
Record t : Type := mk {
  block_number : Z;
  timestamp : Z;
  base_token : string;
  quote_token : string;
  buy_exchange : string;
  sell_exchange : string;
  buy_pair_address : string;
  sell_pair_address : string;
  buy_price : Q;
  sell_price : Q;
  spread_bps : Q;
  spread_percentage : Q;
  buy_reserve0 : Q;
  buy_reserve1 : Q;
  sell_reserve0 : Q;
  sell_reserve1 : Q
}.

Definition keys : list string :=
  ["block_number"; "timestamp"; "base_token"; "quote_token";
   "buy_exchange"; "sell_exchange"; "buy_pair_address";
   "sell_pair_address"; "buy_price"; "sell_price"; "spread_bps";
   "spread_percentage"; "buy_reserve0"; "buy_reserve1"; "sell_reserve0";
   "sell_reserve1"]%string.
End Opportunity.

(** The text of [generate_execution_notes]; the spread is printed with one
    decimal by the format [:.1f], which is kept symbolic here. *)
Inductive execution_note : Type :=
| Profitable_arbitrage (spread_bps : Q)
| Unprofitable_due_to_gas_costs (spread_bps : Q).

(** The dictionary [simulate_arbitrage_trade] returns.  [opportunity_id]
    is the formatted string [block_buy_sell], kept as its three parts. *)
Module TradeSimulation.
Record t : Type := mk {
  opportunity_id : Z * string * string;
  block_number : Z;
  timestamp : Z;
  base_token : string;
  quote_token : string;
  buy_exchange : string;
  sell_exchange : string;
  trade_amount_base : Q;
  buy_price : Q;
  sell_price : Q;
  spread_bps : Q;
  gross_profit : Q;
  gas_cost_usd : Q;
  net_profit : Q;
  is_profitable : bool;
  roi_percentage : Q;
  buy_fee_bps : Q;
  sell_fee_bps : Q;
  buy_price_impact_bps : Q;
  sell_price_impact_bps : Q;
  execution_notes : execution_note
}.

Definition keys : list string :=
  ["opportunity_id"; "block_number"; "timestamp"; "base_token";
   "quote_token"; "buy_exchange"; "sell_exchange"; "trade_amount_base";
   "buy_price"; "sell_price"; "spread_bps"; "gross_profit";
   "gas_cost_usd"; "net_profit"; "is_profitable"; "roi_percentage";
   "buy_fee_bps"; "sell_fee_bps"; "buy_price_impact_bps";
   "sell_price_impact_bps"; "execution_notes"]%string.
End TradeSimulation.

(* ------------------------------------------------------------------ *)
(** * pandas: the part of DataFrame and Series the analyzer uses        *)
(* ------------------------------------------------------------------ *)

Module Pandas.

(** A frame of records of type [R]: its column labels and its rows. *)
Record DataFrame (R : Type) : Type := mk {
  columns : list string;
  rows : list R
}.
Arguments mk {R} columns rows.
Arguments columns {R} d.
Arguments rows {R} d.

(** [pd.DataFrame(data)] for a list of dictionaries that all have the
    keys [keys]: the columns are the keys met in the data, so an empty
    list gives a frame without any column. *)
Definition from_records {R} (keys : list string) (data : list R)
  : DataFrame R :=
  {| columns := match data with [] => [] | _ :: _ => keys end;
     rows := data |}.

(** [len(df)] *)
Definition len {R} (df : DataFrame R) : Z := Z.of_nat (List.length (rows df)).

(** [df[key]]: the column, or [KeyError] when the frame has no such
    label.  [field] reads the key from a row. *)
Definition getitem {R A} (df : DataFrame R) (key : string) (field : R -> A)
  : outcome (list A) :=
  if existsb (String.eqb key) (columns df)
  then Ret (map field (rows df))
  else Raise (KeyError key).

(** [df[mask]] for a boolean Series [mask] *)
Definition select {R} (df : DataFrame R) (mask : list bool) : DataFrame R :=
  {| columns := columns df;
     rows := map fst (filter snd (combine (rows df) mask)) |}.

(** A numeric scalar of a reduction: a number or not-a-number. *)
Inductive scalar : Type :=
| Num (q : Q)
| NaN.

(** [Series.sum()], [Series.mean()], [Series.max()] *)
Definition total (s : list Q) : Q := fold_left Qplus s 0.

Definition sum (s : list Q) : scalar := Num (total s).

Definition mean (s : list Q) : scalar :=
  match s with
  | [] => NaN
  | _ :: _ => Num (total s / inject_Z (Z.of_nat (List.length s)))
  end.

Definition max (s : list Q) : scalar :=
  match s with
  | [] => NaN
  | x :: rest => Num (fold_left (fun m y => if Py.lt m y then y else m) rest x)
  end.

End Pandas.

(* ------------------------------------------------------------------ *)
(** * ArbitrageAnalyzer                                                 *)
(* ------------------------------------------------------------------ *)

(** The instance attributes.  [Session] stands for the database session:
    the rows of the pool-state query for a block, newest first, or the
    exception the database raised. *)
Module Analyzer.
Record t : Type := mk {
  Session : Z -> outcome (list PoolState.t);
  min_spread_bps : Q;
  gas_price_gwei : Q;
  gas_limit : Q;
  eth_price_usd : Q;
  uniswap_fee_bps : Q;
  sushiswap_fee_bps : Q
}.
End Analyzer.

(** [ArbitrageAnalyzer(database_url, min_spread_bps=50)] *)
Definition init (session : Z -> outcome (list PoolState.t))
    (min_spread_bps : option Q) : Analyzer.t :=
  {| Analyzer.Session := session;
     Analyzer.min_spread_bps :=
       match min_spread_bps with Some m => m | None => 50 end;
     Analyzer.gas_price_gwei := 20;
     Analyzer.gas_limit := 500000;
     Analyzer.eth_price_usd := 2000;
     Analyzer.uniswap_fee_bps := 30;
     Analyzer.sushiswap_fee_bps := 30 |}.

(** ** calculate_gas_cost *)

Definition calculate_gas_cost (self : Analyzer.t) (gas_price_gwei : option Q)
  : Q :=
  let gas_price := Py.or_ gas_price_gwei (Analyzer.gas_price_gwei self) in
  let gas_cost_eth := gas_price * Analyzer.gas_limit self * 1e-9 in
  let gas_cost_usd := gas_cost_eth * Analyzer.eth_price_usd self in
  gas_cost_usd.

(** ** get_exchange_fee *)

Definition get_exchange_fee (self : Analyzer.t) (exchange_name : string) : Q :=
  let fees : Py.dict Q :=
    [("Uniswap V2"%string, Analyzer.uniswap_fee_bps self);
     ("SushiSwap"%string, Analyzer.sushiswap_fee_bps self)] in
  Py.dict_get fees exchange_name 30.

(** ** calculate_price_impact *)

Definition calculate_price_impact_body (amount_in reserve_in reserve_out : Q)
  : outcome (option PriceImpact.t) :=
  if Py.eq reserve_in 0 || Py.eq reserve_out 0 then Ret None
  else
    amount_out <- truediv (reserve_out * amount_in) (reserve_in + amount_in) ;;
    price_before <- truediv reserve_out reserve_in ;;
    price_after <- truediv (reserve_out - amount_out) (reserve_in + amount_in) ;;
    price_impact <- truediv (price_after - price_before) price_before ;;
    Ret (Some {| PriceImpact.amount_in := amount_in;
                 PriceImpact.amount_out := amount_out;
                 PriceImpact.price_before := price_before;
                 PriceImpact.price_after := price_after;
                 PriceImpact.price_impact := price_impact;
                 PriceImpact.price_impact_bps := price_impact * 10000 |}).

Definition calculate_price_impact (amount_in reserve_in reserve_out : Q)
  : outcome (option PriceImpact.t) :=
  try_except (calculate_price_impact_body amount_in reserve_in reserve_out)
             (fun _ => Ret None).

(** ** detect_arbitrage_opportunities *)

(** The body of the normalisation loop for one state. *)
Definition normalize (state : PoolState.t) : outcome PoolState.normalized :=
  reserve0_normalized <-
    truediv (inject_Z (Z.of_N (PoolState.reserve0 state)))
            (inject_Z (10 ^ Z.of_N (PoolState.token0_decimals state))) ;;
  reserve1_normalized <-
    truediv (inject_Z (Z.of_N (PoolState.reserve1 state)))
            (inject_Z (10 ^ Z.of_N (PoolState.token1_decimals state))) ;;
  price_token0_in_token1 <- truediv reserve1_normalized reserve0_normalized ;;
  Ret {| PoolState.row := state;
         PoolState.reserve0_normalized := reserve0_normalized;
         PoolState.reserve1_normalized := reserve1_normalized;
         PoolState.price_token0_in_token1 := price_token0_in_token1 |}.

(** [for state in pool_states: ...] *)
Fixpoint normalize_all (pool_states : list PoolState.t)
  : outcome (list PoolState.normalized) :=
  match pool_states with
  | [] => Ret []
  | state :: rest =>
      s <- normalize state ;;
      ss <- normalize_all rest ;;
      Ret (s :: ss)
  end.

(** The test that two states are the same token pair on different
    exchanges. *)
Definition same_pair_other_exchange (state1 state2 : PoolState.t) : bool :=
  String.eqb (PoolState.token0_address state1) (PoolState.token0_address state2)
  && String.eqb (PoolState.token1_address state1)
                (PoolState.token1_address state2)
  && negb (String.eqb (PoolState.exchange_name state1)
                      (PoolState.exchange_name state2)).

(** The body of the inner loop: compares [state1] with [state2] and
    appends to [opportunities] when the spread reaches [min_spread]. *)
Definition compare_states (block_number : Z) (min_spread : Q)
    (state1 state2 : PoolState.normalized)
    (opportunities : list Opportunity.t) : outcome (list Opportunity.t) :=
  if same_pair_other_exchange (PoolState.row state1) (PoolState.row state2)
  then
    let price1 := PoolState.price_token0_in_token1 state1 in
    let price2 := PoolState.price_token0_in_token1 state2 in
    if Py.ne price1 price2 then
      let '(buy_state, sell_state, buy_price, sell_price) :=
        if Py.lt price1 price2
        then (state1, state2, price1, price2)
        else (state2, state1, price2, price1) in
      ratio <- truediv (sell_price - buy_price) buy_price ;;
      let spread_bps := ratio * 10000 in
      if Py.ge spread_bps min_spread then
        let opportunity :=
          {| Opportunity.block_number := block_number;
             Opportunity.timestamp :=
               PoolState.timestamp (PoolState.row state1);
             Opportunity.base_token :=
               PoolState.token0_symbol (PoolState.row state1);
             Opportunity.quote_token :=
               PoolState.token1_symbol (PoolState.row state1);
             Opportunity.buy_exchange :=
               PoolState.exchange_name (PoolState.row buy_state);
             Opportunity.sell_exchange :=
               PoolState.exchange_name (PoolState.row sell_state);
             Opportunity.buy_pair_address :=
               PoolState.pair_address (PoolState.row buy_state);
             Opportunity.sell_pair_address :=
               PoolState.pair_address (PoolState.row sell_state);
             Opportunity.buy_price := buy_price;
             Opportunity.sell_price := sell_price;
             Opportunity.spread_bps := spread_bps;
             Opportunity.spread_percentage := spread_bps / 100;
             Opportunity.buy_reserve0 := PoolState.reserve0_normalized buy_state;
             Opportunity.buy_reserve1 := PoolState.reserve1_normalized buy_state;
             Opportunity.sell_reserve0 :=
               PoolState.reserve0_normalized sell_state;
             Opportunity.sell_reserve1 :=
               PoolState.reserve1_normalized sell_state |} in
        Ret (opportunities ++ [opportunity])
      else Ret opportunities
    else Ret opportunities
  else Ret opportunities.

(** [for j, state2 in enumerate(pool_states[i+1:], i+1): ...] *)
Fixpoint compare_with_rest (block_number : Z) (min_spread : Q)
    (state1 : PoolState.normalized) (rest : list PoolState.normalized)
    (opportunities : list Opportunity.t) : outcome (list Opportunity.t) :=
  match rest with
  | [] => Ret opportunities
  | state2 :: rest' =>
      opportunities' <-
        compare_states block_number min_spread state1 state2 opportunities ;;
      compare_with_rest block_number min_spread state1 rest' opportunities'
  end.

(** [for i, state1 in enumerate(pool_states): ...] *)
Fixpoint compare_all (block_number : Z) (min_spread : Q)
    (pool_states : list PoolState.normalized)
    (opportunities : list Opportunity.t) : outcome (list Opportunity.t) :=
  match pool_states with
  | [] => Ret opportunities
  | state1 :: rest =>
      opportunities' <-
        compare_with_rest block_number min_spread state1 rest opportunities ;;
      compare_all block_number min_spread rest opportunities'
  end.

(** The statements under [try:]. *)
Definition detect_body (self : Analyzer.t) (block_number : Z) (min_spread : Q)
  : outcome (list Opportunity.t) :=
  pool_states <- Analyzer.Session self block_number ;;
  if (List.length pool_states <? 2)%nat then Ret []
  else
    normalized <- normalize_all pool_states ;;
    compare_all block_number min_spread normalized [].

Definition detect_arbitrage_opportunities (self : Analyzer.t)
    (block_number : Z) (min_spread_bps : option Q)
  : outcome (list Opportunity.t) :=
  let min_spread := Py.or_ min_spread_bps (Analyzer.min_spread_bps self) in
  try_except (detect_body self block_number min_spread) (fun _ => Ret []).

(** The threshold the caller asked for: the argument when one is passed,
    the analyzer's own otherwise. *)
Definition requested_threshold (self : Analyzer.t) (min_spread_bps : option Q)
  : Q :=
  match min_spread_bps with
  | Some m => m
  | None => Analyzer.min_spread_bps self
  end.

(** What the detector guarantees of an opportunity it emits under the
    threshold [min_spread]. *)
Definition genuine (min_spread : Q) (o : Opportunity.t) : Prop :=
  0 < Opportunity.buy_price o /\
  Opportunity.buy_price o < Opportunity.sell_price o /\
  Opportunity.spread_bps o
    == (Opportunity.sell_price o - Opportunity.buy_price o)
       / Opportunity.buy_price o * 10000 /\
  min_spread <= Opportunity.spread_bps o.

(** ** generate_execution_notes *)

Definition generate_execution_notes (opportunity : Opportunity.t)
    (is_profitable : bool) : execution_note :=
  if is_profitable
  then Profitable_arbitrage (Opportunity.spread_bps opportunity)
  else Unprofitable_due_to_gas_costs (Opportunity.spread_bps opportunity).

(** ** simulate_arbitrage_trade *)

(** The local variables of [simulate_arbitrage_trade] up to the net
    profit, in the order the function assigns them. *)
Module Legs.
Record t : Type := mk {
  trade_amount_base : Q;
  buy_fee_bps : Q;
  sell_fee_bps : Q;
  amount_after_buy : Q;
  amount_received : Q;
  cost_to_buy : Q;
  gross_profit : Q;
  gas_cost_usd : Q;
  net_profit : Q
}.
End Legs.

Definition simulate_legs (self : Analyzer.t) (opportunity : Opportunity.t)
    (trade_amount_base : option Q) : Legs.t :=
  let trade_amount_base :=
    match trade_amount_base with
    | None => Py.min (Opportunity.buy_reserve0 opportunity * 0.1)
                     (Opportunity.sell_reserve0 opportunity * 0.1)
    | Some amount => amount
    end in
  let buy_fee_bps :=
    get_exchange_fee self (Opportunity.buy_exchange opportunity) in
  let sell_fee_bps :=
    get_exchange_fee self (Opportunity.sell_exchange opportunity) in
  let buy_fee_multiplier := 1 - (buy_fee_bps / 10000) in
  let amount_after_buy := trade_amount_base * buy_fee_multiplier in
  let sell_fee_multiplier := 1 - (sell_fee_bps / 10000) in
  let amount_received :=
    amount_after_buy * Opportunity.sell_price opportunity
    * sell_fee_multiplier in
  let cost_to_buy := trade_amount_base * Opportunity.buy_price opportunity in
  let gross_profit := amount_received - cost_to_buy in
  let gas_cost_usd := calculate_gas_cost self None in
  let net_profit := gross_profit - gas_cost_usd in
  {| Legs.trade_amount_base := trade_amount_base;
     Legs.buy_fee_bps := buy_fee_bps;
     Legs.sell_fee_bps := sell_fee_bps;
     Legs.amount_after_buy := amount_after_buy;
     Legs.amount_received := amount_received;
     Legs.cost_to_buy := cost_to_buy;
     Legs.gross_profit := gross_profit;
     Legs.gas_cost_usd := gas_cost_usd;
     Legs.net_profit := net_profit |}.

(** [impact['price_impact_bps'] if impact else 0] *)
Definition impact_bps_or_zero (impact : option PriceImpact.t) : Q :=
  match impact with
  | Some r => PriceImpact.price_impact_bps r
  | None => 0
  end.

(** The statements under [try:]. *)
Definition simulate_body (self : Analyzer.t) (opportunity : Opportunity.t)
    (trade_amount_base : option Q) : outcome (option TradeSimulation.t) :=
  let legs := simulate_legs self opportunity trade_amount_base in
  buy_price_impact <-
    calculate_price_impact (Legs.trade_amount_base legs)
      (Opportunity.buy_reserve0 opportunity)
      (Opportunity.buy_reserve1 opportunity) ;;
  sell_price_impact <-
    calculate_price_impact (Legs.amount_after_buy legs)
      (Opportunity.sell_reserve0 opportunity)
      (Opportunity.sell_reserve1 opportunity) ;;
  let is_profitable := Py.gt (Legs.net_profit legs) 0 in
  roi <-
    (if Py.gt (Legs.cost_to_buy legs) 0
     then ratio <- truediv (Legs.net_profit legs) (Legs.cost_to_buy legs) ;;
          Ret (ratio * 100)
     else Ret 0) ;;
  Ret (Some
    {| TradeSimulation.opportunity_id :=
         (Opportunity.block_number opportunity,
          Opportunity.buy_exchange opportunity,
          Opportunity.sell_exchange opportunity);
       TradeSimulation.block_number := Opportunity.block_number opportunity;
       TradeSimulation.timestamp := Opportunity.timestamp opportunity;
       TradeSimulation.base_token := Opportunity.base_token opportunity;
       TradeSimulation.quote_token := Opportunity.quote_token opportunity;
       TradeSimulation.buy_exchange := Opportunity.buy_exchange opportunity;
       TradeSimulation.sell_exchange := Opportunity.sell_exchange opportunity;
       TradeSimulation.trade_amount_base := Legs.trade_amount_base legs;
       TradeSimulation.buy_price := Opportunity.buy_price opportunity;
       TradeSimulation.sell_price := Opportunity.sell_price opportunity;
       TradeSimulation.spread_bps := Opportunity.spread_bps opportunity;
       TradeSimulation.gross_profit := Legs.gross_profit legs;
       TradeSimulation.gas_cost_usd := Legs.gas_cost_usd legs;
       TradeSimulation.net_profit := Legs.net_profit legs;
       TradeSimulation.is_profitable := is_profitable;
       TradeSimulation.roi_percentage := roi;
       TradeSimulation.buy_fee_bps := Legs.buy_fee_bps legs;
       TradeSimulation.sell_fee_bps := Legs.sell_fee_bps legs;
       TradeSimulation.buy_price_impact_bps :=
         impact_bps_or_zero buy_price_impact;
       TradeSimulation.sell_price_impact_bps :=
         impact_bps_or_zero sell_price_impact;
       TradeSimulation.execution_notes :=
         generate_execution_notes opportunity is_profitable |}).

Definition simulate_arbitrage_trade (self : Analyzer.t)
    (opportunity : Opportunity.t) (trade_amount_base : option Q)
  : outcome (option TradeSimulation.t) :=
  try_except (simulate_body self opportunity trade_amount_base)
             (fun _ => Ret None).

(** ** analyze_historical_opportunities *)

(** The two lists the loop appends to.  They are mutated in place, so
    what was appended before an exception stays appended. *)
Record collected : Type := mk_collected {
  all_opportunities : list Opportunity.t;
  all_trades : list TradeSimulation.t
}.

(** Extension of the two lists by what a block leaves. *)
Definition extend (acc : collected)
    (more : list Opportunity.t * list TradeSimulation.t) : collected :=
  {| all_opportunities := all_opportunities acc ++ fst more;
     all_trades := all_trades acc ++ snd more |}.

Section Runner.

(** The methods the loop calls on [self], and the progress bar.  Each may
    raise: the loop has its own [try] around them. *)
Variable detect : Z -> Q -> outcome (list Opportunity.t).
Variable simulate : Opportunity.t -> outcome (option TradeSimulation.t).
Variable progress_update : Z -> outcome unit.

(** [for opportunity in opportunities: ...] *)
Fixpoint for_opportunities (opportunities : list Opportunity.t)
    (acc : collected) : collected * outcome unit :=
  match opportunities with
  | [] => (acc, Ret tt)
  | opportunity :: rest =>
      let acc1 :=
        {| all_opportunities := all_opportunities acc ++ [opportunity];
           all_trades := all_trades acc |} in
      match simulate opportunity with
      | Raise e => (acc1, Raise e)
      | Ret trade_simulation =>
          let acc2 :=
            match trade_simulation with
            | Some trade =>
                {| all_opportunities := all_opportunities acc1;
                   all_trades := all_trades acc1 ++ [trade] |}
            | None => acc1
            end in
          for_opportunities rest acc2
      end
  end.

(** The statements under [try:] for one block. *)
Definition block_body (from_block block_number : Z) (min_spread : Q)
    (acc : collected) : collected * outcome unit :=
  match detect block_number min_spread with
  | Raise e => (acc, Raise e)
  | Ret opportunities =>
      match for_opportunities opportunities acc with
      | (acc', Raise e) => (acc', Raise e)
      | (acc', Ret _) =>
          if ((block_number - from_block) mod 100 =? 0)%Z
          then (acc', progress_update (block_number - from_block)%Z)
          else (acc', Ret tt)
      end
  end.

(** One iteration: [try: ... except Exception: continue]. *)
Definition block_step (from_block : Z) (min_spread : Q) (acc : collected)
    (block_number : Z) : collected :=
  fst (block_body from_block block_number min_spread acc).

(** The loop over [range(from_block, to_block + 1)] and the conversion of
    the two lists to frames. *)
Definition analyze_loop (from_block to_block : Z) (min_spread : Q)
  : Pandas.DataFrame Opportunity.t * Pandas.DataFrame TradeSimulation.t :=
  let acc :=
    fold_left (block_step from_block min_spread)
              (Py.range from_block (to_block + 1))
              {| all_opportunities := []; all_trades := [] |} in
  (Pandas.from_records Opportunity.keys (all_opportunities acc),
   Pandas.from_records TradeSimulation.keys (all_trades acc)).

(** What one block leaves in the two lists, as a function of the results
    of the calls made for it. *)
Fixpoint kept (opportunities : list Opportunity.t)
  : list Opportunity.t * list TradeSimulation.t :=
  match opportunities with
  | [] => ([], [])
  | opportunity :: rest =>
      match simulate opportunity with
      | Raise _ => ([opportunity], [])
      | Ret None => (opportunity :: fst (kept rest), snd (kept rest))
      | Ret (Some trade) =>
          (opportunity :: fst (kept rest), trade :: snd (kept rest))
      end
  end.

Definition block_contribution (block_number : Z) (min_spread : Q)
  : list Opportunity.t * list TradeSimulation.t :=
  match detect block_number min_spread with
  | Raise _ => ([], [])
  | Ret opportunities => kept opportunities
  end.

(** The trades of the opportunities whose simulation gave a result. *)
Definition simulated (opportunities : list Opportunity.t)
  : list TradeSimulation.t :=
  flat_map (fun opportunity =>
              match simulate opportunity with
              | Ret (Some trade) => [trade]
              | _ => []
              end) opportunities.

End Runner.

(** The runner as the specification words it: a block whose processing
    raises is skipped and leaves nothing in the results; every other block
    leaves all its opportunities and their trades. *)
Section RunnerAsSpecified.

Variable detect : Z -> Q -> outcome (list Opportunity.t).
Variable simulate : Opportunity.t -> outcome (option TradeSimulation.t).
Variable progress_update : Z -> outcome unit.




End RunnerAsSpecified.

Definition analyze_historical_opportunities (self : Analyzer.t)
    (from_block to_block : Z) (min_spread_bps : option Q)
  : Pandas.DataFrame Opportunity.t * Pandas.DataFrame TradeSimulation.t :=
  let min_spread := Py.or_ min_spread_bps (Analyzer.min_spread_bps self) in
  analyze_loop
    (fun block_number m =>
       detect_arbitrage_opportunities self block_number (Some m))
    (fun opportunity => simulate_arbitrage_trade self opportunity None)
    (fun _ => Ret tt)
    from_block to_block min_spread.

(** ** get_opportunity_summary *)

(** The summary dictionary; the empty list is the empty dictionary. *)
Definition summary : Type := Py.dict Pandas.scalar.

(** [len(df_trades[df_trades['is_profitable'] == True])] *)
Definition count_profitable (df_trades : Pandas.DataFrame TradeSimulation.t)
  : outcome Z :=
  column <-
    Pandas.getitem df_trades "is_profitable" TradeSimulation.is_profitable ;;
  Ret (Pandas.len (Pandas.select df_trades (map (Bool.eqb true) column))).

(** [df[key].reduce() if len(df) > 0 else 0] *)
Definition reduce_or_zero {R} (df : Pandas.DataFrame R) (key : string)
    (field : R -> Q) (reduce : list Q -> Pandas.scalar)
  : outcome Pandas.scalar :=
  if (Pandas.len df >? 0)%Z
  then column <- Pandas.getitem df key field ;; Ret (reduce column)
  else Ret (Pandas.Num 0).

(** The statements under [try:]; the entries of the dictionary display
    are evaluated in order. *)
Definition summary_body (df_opportunities : Pandas.DataFrame Opportunity.t)
    (df_trades : Pandas.DataFrame TradeSimulation.t) : outcome summary :=
  let total_opportunities := Pandas.len df_opportunities in
  let total_trades := Pandas.len df_trades in
  profitable_trades <- count_profitable df_trades ;;
  profitable_rate <-
    (if (Pandas.len df_trades >? 0)%Z
     then n <- count_profitable df_trades ;;
          truediv (inject_Z n) (inject_Z (Pandas.len df_trades))
     else Ret 0) ;;
  avg_spread_bps <-
    reduce_or_zero df_opportunities "spread_bps" Opportunity.spread_bps
                   Pandas.mean ;;
  max_spread_bps <-
    reduce_or_zero df_opportunities "spread_bps" Opportunity.spread_bps
                   Pandas.max ;;
  total_gross_profit <-
    reduce_or_zero df_trades "gross_profit" TradeSimulation.gross_profit
                   Pandas.sum ;;
  total_net_profit <-
    reduce_or_zero df_trades "net_profit" TradeSimulation.net_profit
                   Pandas.sum ;;
  total_gas_costs <-
    reduce_or_zero df_trades "gas_cost_usd" TradeSimulation.gas_cost_usd
                   Pandas.sum ;;
  avg_roi <-
    reduce_or_zero df_trades "roi_percentage" TradeSimulation.roi_percentage
                   Pandas.mean ;;
  Ret [("total_opportunities", Pandas.Num (inject_Z total_opportunities));
       ("total_trades", Pandas.Num (inject_Z total_trades));
       ("profitable_trades", Pandas.Num (inject_Z profitable_trades));
       ("profitable_rate", Pandas.Num profitable_rate);
       ("avg_spread_bps", avg_spread_bps);
       ("max_spread_bps", max_spread_bps);
       ("total_gross_profit", total_gross_profit);
       ("total_net_profit", total_net_profit);
       ("total_gas_costs", total_gas_costs);
       ("avg_roi", avg_roi)]%string.

Definition get_opportunity_summary
    (df_opportunities : Pandas.DataFrame Opportunity.t)
    (df_trades : Pandas.DataFrame TradeSimulation.t) : outcome summary :=
  try_except (summary_body df_opportunities df_trades) (fun _ => Ret []).

(* ------------------------------------------------------------------ *)
(** * EventParser: the price functions of [parser/event_parser.py]      *)
(* ------------------------------------------------------------------ *)

(** The result of [EventParser.calculate_pool_price]. *)
Module PoolPrice.
Record t : Type := mk {
  price_token0_in_token1 : Q;
  price_token1_in_token0 : Q;
  inverse_price : Q;
  token0_symbol : string;
  token1_symbol : string
}.
End PoolPrice.

Module EventParser.

(** ** calculate_pool_price *)

Definition calculate_pool_price_body (reserve0 reserve1 : Q)
    (token0_symbol token1_symbol : string) : outcome (option PoolPrice.t) :=
  if Py.eq reserve0 0 || Py.eq reserve1 0 then Ret None
  else
    price_token0_in_token1 <- truediv reserve1 reserve0 ;;
    price_token1_in_token0 <- truediv reserve0 reserve1 ;;
    inverse_price <- truediv 1 price_token0_in_token1 ;;
    Ret (Some {| PoolPrice.price_token0_in_token1 := price_token0_in_token1;
                 PoolPrice.price_token1_in_token0 := price_token1_in_token0;
                 PoolPrice.inverse_price := inverse_price;
                 PoolPrice.token0_symbol := token0_symbol;
                 PoolPrice.token1_symbol := token1_symbol |}).

Definition calculate_pool_price (reserve0 reserve1 : Q)
    (token0_symbol token1_symbol : string) : outcome (option PoolPrice.t) :=
  try_except
    (calculate_pool_price_body reserve0 reserve1 token0_symbol token1_symbol)
    (fun _ => Ret None).

(** ** calculate_price_impact: the parser's copy, which has no test of
    the reserves before the divisions *)

Definition calculate_price_impact_body (amount_in reserve_in reserve_out : Q)
  : outcome (option PriceImpact.t) :=
  amount_out <- truediv (reserve_out * amount_in) (reserve_in + amount_in) ;;
  price_before <- truediv reserve_out reserve_in ;;
  price_after <- truediv (reserve_out - amount_out) (reserve_in + amount_in) ;;
  price_impact <- truediv (price_after - price_before) price_before ;;
  Ret (Some {| PriceImpact.amount_in := amount_in;
               PriceImpact.amount_out := amount_out;
               PriceImpact.price_before := price_before;
               PriceImpact.price_after := price_after;
               PriceImpact.price_impact := price_impact;
               PriceImpact.price_impact_bps := price_impact * 10000 |}).

Definition calculate_price_impact (amount_in reserve_in reserve_out : Q)
  : outcome (option PriceImpact.t) :=
  try_except (calculate_price_impact_body amount_in reserve_in reserve_out)
             (fun _ => Ret None).

End EventParser.

(* ------------------------------------------------------------------ *)
(** * Notions used in the statements                                    *)
(* ------------------------------------------------------------------ *)

(** The decimal-adjusted reserves and the price of a row, as rationals. *)
Definition adjusted0 (state : PoolState.t) : Q :=
  inject_Z (Z.of_N (PoolState.reserve0 state))
  / inject_Z (10 ^ Z.of_N (PoolState.token0_decimals state)).

Definition adjusted1 (state : PoolState.t) : Q :=
  inject_Z (Z.of_N (PoolState.reserve1 state))
  / inject_Z (10 ^ Z.of_N (PoolState.token1_decimals state)).

Definition price_of (state : PoolState.t) : Q :=
  adjusted1 state / adjusted0 state.

(** A normalised state carries the adjusted reserves and the price of
    its row. *)
Definition normalized_of (n : PoolState.normalized) : Prop :=
  PoolState.reserve0_normalized n = adjusted0 (PoolState.row n) /\
  PoolState.reserve1_normalized n = adjusted1 (PoolState.row n) /\
  PoolState.price_token0_in_token1 n = price_of (PoolState.row n) /\
  0 < adjusted0 (PoolState.row n) /\
  0 <= adjusted1 (PoolState.row n).

(** An opportunity of block [block_number] is coherent: two different
    venues, four positive reserves, each price the ratio of its pool's
    reserves, and the percentage a hundredth of the basis points. *)
Definition coherent (block_number : Z) (o : Opportunity.t) : Prop :=
  Opportunity.block_number o = block_number /\
  Opportunity.buy_exchange o <> Opportunity.sell_exchange o /\
  0 < Opportunity.buy_reserve0 o /\
  0 < Opportunity.buy_reserve1 o /\
  0 < Opportunity.sell_reserve0 o /\
  0 < Opportunity.sell_reserve1 o /\
  Opportunity.buy_price o
    == Opportunity.buy_reserve1 o / Opportunity.buy_reserve0 o /\
  Opportunity.sell_price o
    == Opportunity.sell_reserve1 o / Opportunity.sell_reserve0 o /\
  Opportunity.spread_percentage o == Opportunity.spread_bps o / 100.

(** Two opportunities are the same deal: same venues, pairs, prices,
    spread and reserves.  The timestamp and the two symbols, which the
    detector copies from the first state of a pair, are left out. *)
Definition same_deal (o1 o2 : Opportunity.t) : Prop :=
  Opportunity.block_number o1 = Opportunity.block_number o2 /\
  Opportunity.buy_exchange o1 = Opportunity.buy_exchange o2 /\
  Opportunity.sell_exchange o1 = Opportunity.sell_exchange o2 /\
  Opportunity.buy_pair_address o1 = Opportunity.buy_pair_address o2 /\
  Opportunity.sell_pair_address o1 = Opportunity.sell_pair_address o2 /\
  Opportunity.buy_price o1 = Opportunity.buy_price o2 /\
  Opportunity.sell_price o1 = Opportunity.sell_price o2 /\
  Opportunity.spread_bps o1 = Opportunity.spread_bps o2 /\
  Opportunity.spread_percentage o1 = Opportunity.spread_percentage o2 /\
  Opportunity.buy_reserve0 o1 = Opportunity.buy_reserve0 o2 /\
  Opportunity.buy_reserve1 o1 = Opportunity.buy_reserve1 o2 /\
  Opportunity.sell_reserve0 o1 = Opportunity.sell_reserve0 o2 /\
  Opportunity.sell_reserve1 o1 = Opportunity.sell_reserve1 o2.

(** The opportunities of a detector call, [[]] if it raised. *)
Definition found (r : outcome (list Opportunity.t)) : list Opportunity.t :=
  match r with
  | Ret opportunities => opportunities
  | Raise _ => []
  end.

(* ------------------------------------------------------------------ *)
(** * Sample data                                                       *)
(* ------------------------------------------------------------------ *)

(** Agreement with a printed decimal: [x] is within [eps] of [v]. *)
Definition approx (x v eps : Q) : Prop := Qabs (x - v) <= eps.

(** A WETH/USDC pool (18 and 6 decimals) on [exchange] holding
    [weth] WETH and [usdc] USDC. *)
Definition weth_usdc_pool (exchange address : string) (weth usdc : N)
  : PoolState.t :=
  {| PoolState.pair_address := address;
     PoolState.token0_address := "0xC02a";
     PoolState.token1_address := "0xA0b8";
     PoolState.exchange_name := exchange;
     PoolState.reserve0 := weth * 10 ^ 18;
     PoolState.reserve1 := usdc * 10 ^ 6;
     PoolState.timestamp := 1700000000;
     PoolState.token0_symbol := "WETH";
     PoolState.token1_symbol := "USDC";
     PoolState.token0_decimals := 18;
     PoolState.token1_decimals := 6 |}.

Definition uniswap_pool : PoolState.t :=
  weth_usdc_pool "Uniswap V2" "0xB4e1" 1000 2000000.

Definition sushiswap_pool : PoolState.t :=
  weth_usdc_pool "SushiSwap" "0x397F" 1000 2020000.

(** A pool priced 25 bps above [uniswap_pool]. *)
Definition sushiswap_close_pool : PoolState.t :=
  weth_usdc_pool "SushiSwap" "0x397F" 1000 2005000.

(** A second Uniswap V2 pool of the pair, priced 50% above
    [uniswap_pool]. *)
Definition uniswap_second_pool : PoolState.t :=
  weth_usdc_pool "Uniswap V2" "0xAAAA" 1000 3000000.

(** A pool whose WETH side is empty, and one whose USDC side is. *)
Definition drained_pool : PoolState.t :=
  weth_usdc_pool "ShibaSwap" "0x0000" 0 5.

Definition drained_quote_pool : PoolState.t :=
  weth_usdc_pool "ShibaSwap" "0x0000" 5 0.

(** A database with the same rows at every block. *)
Definition constant_session (rows : list PoolState.t)
  : Z -> outcome (list PoolState.t) :=
  fun _ => Ret rows.

(** The same prices between two pools a hundred times smaller. *)
Definition shallow_opportunity (block_number : Z) : Opportunity.t :=
  {| Opportunity.block_number := block_number;
     Opportunity.timestamp := 1700000000;
     Opportunity.base_token := "WETH";
     Opportunity.quote_token := "USDC";
     Opportunity.buy_exchange := "Uniswap V2";
     Opportunity.sell_exchange := "SushiSwap";
     Opportunity.buy_pair_address := "0xB4e1";
     Opportunity.sell_pair_address := "0x397F";
     Opportunity.buy_price := 2000;
     Opportunity.sell_price := 2020;
     Opportunity.spread_bps := 100;
     Opportunity.spread_percentage := 1;
     Opportunity.buy_reserve0 := 10;
     Opportunity.buy_reserve1 := 20000;
     Opportunity.sell_reserve0 := 10;
     Opportunity.sell_reserve1 := 20200 |}.

(** A spread of exactly 50 bps between the pools of
    [sample_opportunity]. *)
Definition narrow_opportunity (block_number : Z) : Opportunity.t :=
  {| Opportunity.block_number := block_number;
     Opportunity.timestamp := 1700000000;
     Opportunity.base_token := "WETH";
     Opportunity.quote_token := "USDC";
     Opportunity.buy_exchange := "Uniswap V2";
     Opportunity.sell_exchange := "SushiSwap";
     Opportunity.buy_pair_address := "0xB4e1";
     Opportunity.sell_pair_address := "0x397F";
     Opportunity.buy_price := 2000;
     Opportunity.sell_price := 2010;
     Opportunity.spread_bps := 50;
     Opportunity.spread_percentage := 0.5;
     Opportunity.buy_reserve0 := 1000;
     Opportunity.buy_reserve1 := 2000000;
     Opportunity.sell_reserve0 := 1000;
     Opportunity.sell_reserve1 := 2010000 |}.

(** An opportunity whose buy pool has lost its base reserve. *)
Definition one_sided_opportunity (block_number : Z) : Opportunity.t :=
  {| Opportunity.block_number := block_number;
     Opportunity.timestamp := 1700000000;
     Opportunity.base_token := "WETH";
     Opportunity.quote_token := "USDC";
     Opportunity.buy_exchange := "Uniswap V2";
     Opportunity.sell_exchange := "SushiSwap";
     Opportunity.buy_pair_address := "0xB4e1";
     Opportunity.sell_pair_address := "0x397F";
     Opportunity.buy_price := 2000;
     Opportunity.sell_price := 2020;
     Opportunity.spread_bps := 100;
     Opportunity.spread_percentage := 1;
     Opportunity.buy_reserve0 := 0;
     Opportunity.buy_reserve1 := 2000000;
     Opportunity.sell_reserve0 := 1000;
     Opportunity.sell_reserve1 := 2020000 |}.

(** A detector that reports the same opportunities at every block, and
    a simulator that fails on the opportunities of block 2. *)
Definition fixed_detect (opportunities : list Opportunity.t)
    (block_number : Z) (min_spread : Q) : outcome (list Opportunity.t) :=
  Ret opportunities.

Definition flaky_simulate (self : Analyzer.t) (opportunity : Opportunity.t)
  : outcome (option TradeSimulation.t) :=
  if (Opportunity.block_number opportunity =? 2)%Z
  then Raise (KeyError "sell_price")
  else simulate_arbitrage_trade self opportunity None.


(** The opportunity between [uniswap_pool] (price 2000) and
    [sushiswap_pool] (price 2020) at block [block_number]. *)
Definition sample_opportunity (block_number : Z) : Opportunity.t :=
  {| Opportunity.block_number := block_number;
     Opportunity.timestamp := 1700000000;
     Opportunity.base_token := "WETH";
     Opportunity.quote_token := "USDC";
     Opportunity.buy_exchange := "Uniswap V2";
     Opportunity.sell_exchange := "SushiSwap";
     Opportunity.buy_pair_address := "0xB4e1";
     Opportunity.sell_pair_address := "0x397F";
     Opportunity.buy_price := 2000;
     Opportunity.sell_price := 2020;
     Opportunity.spread_bps := 100;
     Opportunity.spread_percentage := 1;
     Opportunity.buy_reserve0 := 1000;
     Opportunity.buy_reserve1 := 2000000;
     Opportunity.sell_reserve0 := 1000;
     Opportunity.sell_reserve1 := 2020000 |}.

(* ------------------------------------------------------------------ *)
(** * Properties                                                        *)
(* ------------------------------------------------------------------ *)

Lemma truediv_nonzero (a b : Q) : ~ b == 0 -> truediv a b = Ret (a / b).
Proof.
  intros Hb. unfold truediv.
  destruct (Qeq_bool b 0) eqn:E; [|reflexivity].
  apply Qeq_bool_eq in E. contradiction.
Qed.

Lemma truediv_zero (a b : Q) : b == 0 -> truediv a b = Raise ZeroDivisionError.
Proof.
  intros Hb. unfold truediv. now rewrite (Qeq_eq_bool _ _ Hb).
Qed.

Lemma py_eq_false (a b : Q) : ~ a == b -> Py.eq a b = false.
Proof.
  intros H. unfold Py.eq. destruct (Qeq_bool a b) eqn:E; [|reflexivity].
  apply Qeq_bool_eq in E. contradiction.
Qed.

(** ** calculate_price_impact *)

(** C1. With [amount_in >= 0] and both reserves positive,
    [calculate_price_impact] returns a result (not [None], no exception)
    whose fields are
    [amount_out = reserve_out * amount_in / (reserve_in + amount_in)],
    [price_before = reserve_out / reserve_in],
    [price_after = (reserve_out - amount_out) / (reserve_in + amount_in)],
    [price_impact = (price_after - price_before) / price_before] and
    [price_impact_bps = price_impact * 10000]. *)
Theorem calculate_price_impact_formula (amount_in reserve_in reserve_out : Q) :
  0 <= amount_in -> 0 < reserve_in -> 0 < reserve_out ->
  exists r,
    calculate_price_impact amount_in reserve_in reserve_out = Ret (Some r) /\
    PriceImpact.amount_out r
      == reserve_out * amount_in / (reserve_in + amount_in) /\
    PriceImpact.price_before r == reserve_out / reserve_in /\
    PriceImpact.price_after r
      == (reserve_out - PriceImpact.amount_out r) / (reserve_in + amount_in) /\
    PriceImpact.price_impact r
      == (PriceImpact.price_after r - PriceImpact.price_before r)
         / PriceImpact.price_before r /\
    PriceImpact.price_impact_bps r == PriceImpact.price_impact r * 10000.
Proof.
  intros Ha Hin Hout.
  assert (Hsum : ~ reserve_in + amount_in == 0) by lra.
  assert (Hrin : ~ reserve_in == 0) by lra.
  assert (Hrout : ~ reserve_out == 0) by lra.
  assert (Hpb : ~ reserve_out / reserve_in == 0).
  { intros H. apply Hrout.
    rewrite <- (Qmult_div_r reserve_out reserve_in Hrin), H. ring. }
  unfold calculate_price_impact, calculate_price_impact_body.
  rewrite (py_eq_false _ _ Hrin), (py_eq_false _ _ Hrout). cbn [orb].
  rewrite (truediv_nonzero _ _ Hsum). cbn [Py.bind].
  rewrite (truediv_nonzero _ _ Hrin). cbn [Py.bind].
  rewrite (truediv_nonzero _ _ Hsum). cbn [Py.bind].
  rewrite (truediv_nonzero _ _ Hpb). cbn [Py.bind try_except].
  eexists. split; [reflexivity|].
  cbn. repeat split; reflexivity.
Qed.

Lemma calculate_price_impact_formula_witness :
  exists r,
    calculate_price_impact 10 1000 2000000 = Ret (Some r) /\
    PriceImpact.amount_out r == 2000000 * 10 / (1000 + 10) /\
    PriceImpact.price_before r == 2000000 / 1000 /\
    PriceImpact.price_after r
      == (2000000 - PriceImpact.amount_out r) / (1000 + 10) /\
    PriceImpact.price_impact r
      == (PriceImpact.price_after r - PriceImpact.price_before r)
         / PriceImpact.price_before r /\
    PriceImpact.price_impact_bps r == PriceImpact.price_impact r * 10000.
Proof.
  apply (calculate_price_impact_formula 10 1000 2000000); lra.
Defined.

(** C4. If [reserve_in = 0] or [reserve_out = 0], then for every
    [amount_in] the call returns [None]; it does not raise. *)
Theorem calculate_price_impact_zero_reserve
    (amount_in reserve_in reserve_out : Q) :
  reserve_in == 0 \/ reserve_out == 0 ->
  calculate_price_impact amount_in reserve_in reserve_out = Ret None.
Proof.
  intros H. unfold calculate_price_impact, calculate_price_impact_body, Py.eq.
  destruct H as [H|H]; rewrite (Qeq_eq_bool _ _ H).
  - reflexivity.
  - rewrite orb_true_r. reflexivity.
Qed.

Lemma calculate_price_impact_zero_reserve_witness :
  calculate_price_impact 10 0 2000000 = Ret None.
Proof.
  apply (calculate_price_impact_zero_reserve 10 0 2000000).
  left. reflexivity.
Defined.

(** ** Comparisons *)

Lemma py_lt_iff (a b : Q) : Py.lt a b = true <-> a < b.
Proof.
  unfold Py.lt. rewrite negb_true_iff. split.
  - intros H. apply Qnot_le_lt. intros Hle.
    apply Qle_bool_iff in Hle. congruence.
  - intros H. destruct (Qle_bool b a) eqn:E; [|reflexivity].
    apply Qle_bool_iff in E. lra.
Qed.

Lemma py_gt_iff (a b : Q) : Py.gt a b = true <-> b < a.
Proof. unfold Py.gt. apply py_lt_iff. Qed.

Lemma py_ge_iff (a b : Q) : Py.ge a b = true <-> b <= a.
Proof. unfold Py.ge. apply Qle_bool_iff. Qed.

Lemma py_ne_iff (a b : Q) : Py.ne a b = true <-> ~ a == b.
Proof.
  unfold Py.ne. rewrite negb_true_iff. split.
  - apply Qeq_bool_neq.
  - intros H. destruct (Qeq_bool a b) eqn:E; [|reflexivity].
    apply Qeq_bool_eq in E. contradiction.
Qed.

(** ** simulate_arbitrage_trade *)

Lemma calculate_price_impact_returns (amount_in reserve_in reserve_out : Q) :
  exists r, calculate_price_impact amount_in reserve_in reserve_out = Ret r.
Proof.
  unfold calculate_price_impact.
  destruct (calculate_price_impact_body amount_in reserve_in reserve_out);
    cbn; eauto.
Qed.

(** The simulation of a well-formed opportunity always gives a trade. *)
Lemma simulate_arbitrage_trade_returns (self : Analyzer.t)
    (opportunity : Opportunity.t) (trade_amount_base : option Q) :
  exists t,
    simulate_arbitrage_trade self opportunity trade_amount_base
    = Ret (Some t).
Proof.
  unfold simulate_arbitrage_trade, simulate_body.
  set (legs := simulate_legs self opportunity trade_amount_base).
  destruct (calculate_price_impact_returns (Legs.trade_amount_base legs)
              (Opportunity.buy_reserve0 opportunity)
              (Opportunity.buy_reserve1 opportunity)) as [r1 ->].
  destruct (calculate_price_impact_returns (Legs.amount_after_buy legs)
              (Opportunity.sell_reserve0 opportunity)
              (Opportunity.sell_reserve1 opportunity)) as [r2 ->].
  cbn [Py.bind].
  destruct (Py.gt (Legs.cost_to_buy legs) 0) eqn:Hc.
  - apply py_gt_iff in Hc.
    rewrite truediv_nonzero by lra. cbn. eauto.
  - cbn. eauto.
Qed.

(** C2. Every trade [simulate_arbitrage_trade] returns has
    [net_profit = gross_profit - gas_cost_usd], is flagged profitable
    exactly when [net_profit > 0], and has
    [roi_percentage = net_profit / cost_to_buy * 100] when
    [cost_to_buy = trade_amount_base * buy_price] is positive and
    [roi_percentage = 0] otherwise. *)
Theorem simulate_profit_invariant (self : Analyzer.t)
    (opportunity : Opportunity.t) (trade_amount_base : option Q)
    (t : TradeSimulation.t) :
  simulate_arbitrage_trade self opportunity trade_amount_base = Ret (Some t) ->
  let cost_to_buy :=
    TradeSimulation.trade_amount_base t * TradeSimulation.buy_price t in
  TradeSimulation.net_profit t
    == TradeSimulation.gross_profit t - TradeSimulation.gas_cost_usd t /\
  (TradeSimulation.is_profitable t = true
   <-> 0 < TradeSimulation.net_profit t) /\
  (0 < cost_to_buy ->
   TradeSimulation.roi_percentage t
     == TradeSimulation.net_profit t / cost_to_buy * 100) /\
  (~ 0 < cost_to_buy -> TradeSimulation.roi_percentage t == 0).
Proof.
  unfold simulate_arbitrage_trade, simulate_body.
  set (legs := simulate_legs self opportunity trade_amount_base).
  destruct (calculate_price_impact_returns (Legs.trade_amount_base legs)
              (Opportunity.buy_reserve0 opportunity)
              (Opportunity.buy_reserve1 opportunity)) as [r1 ->].
  destruct (calculate_price_impact_returns (Legs.amount_after_buy legs)
              (Opportunity.sell_reserve0 opportunity)
              (Opportunity.sell_reserve1 opportunity)) as [r2 ->].
  cbn [Py.bind].
  destruct (Py.gt (Legs.cost_to_buy legs) 0) eqn:Hc.
  - apply py_gt_iff in Hc.
    rewrite truediv_nonzero by lra. cbn [Py.bind try_except].
    intros H. injection H as <-. cbn.
    repeat split; try reflexivity; try apply py_gt_iff.
    intros Hn. contradiction.
  - assert (Hn : ~ 0 < Legs.cost_to_buy legs).
    { intros Hp. apply py_gt_iff in Hp. congruence. }
    cbn [Py.bind try_except].
    intros H. injection H as <-. cbn.
    repeat split; try reflexivity; try apply py_gt_iff.
    intros Hp. contradiction.
Qed.

Lemma simulate_profit_invariant_witness :
  exists t,
    simulate_arbitrage_trade (init (constant_session []) None)
      (sample_opportunity 18000000) (Some 100) = Ret (Some t) /\
    TradeSimulation.net_profit t
      == TradeSimulation.gross_profit t - TradeSimulation.gas_cost_usd t /\
    (TradeSimulation.is_profitable t = true
     <-> 0 < TradeSimulation.net_profit t) /\
    TradeSimulation.roi_percentage t
      == TradeSimulation.net_profit t / (100 * 2000) * 100.
Proof.
  eexists. split; [vm_compute; reflexivity|].
  split; [|split];
    apply (simulate_profit_invariant (init (constant_session []) None)
             (sample_opportunity 18000000) (Some 100));
    vm_compute; reflexivity.
Defined.

(** The returned dictionary repeats the local variables. *)
Lemma simulate_arbitrage_trade_fields (self : Analyzer.t)
    (opportunity : Opportunity.t) (trade_amount_base : option Q)
    (t : TradeSimulation.t) :
  simulate_arbitrage_trade self opportunity trade_amount_base = Ret (Some t) ->
  let legs := simulate_legs self opportunity trade_amount_base in
  TradeSimulation.gross_profit t = Legs.gross_profit legs /\
  TradeSimulation.gas_cost_usd t = Legs.gas_cost_usd legs /\
  TradeSimulation.net_profit t = Legs.net_profit legs /\
  TradeSimulation.is_profitable t = Py.gt (Legs.net_profit legs) 0.
Proof.
  unfold simulate_arbitrage_trade, simulate_body.
  set (legs := simulate_legs self opportunity trade_amount_base).
  destruct (calculate_price_impact_returns (Legs.trade_amount_base legs)
              (Opportunity.buy_reserve0 opportunity)
              (Opportunity.buy_reserve1 opportunity)) as [r1 ->].
  destruct (calculate_price_impact_returns (Legs.amount_after_buy legs)
              (Opportunity.sell_reserve0 opportunity)
              (Opportunity.sell_reserve1 opportunity)) as [r2 ->].
  cbn [Py.bind].
  destruct (Py.gt (Legs.cost_to_buy legs) 0) eqn:Hc.
  - apply py_gt_iff in Hc.
    rewrite truediv_nonzero by lra. cbn [Py.bind try_except].
    intros H. injection H as <-. cbn. auto.
  - cbn [Py.bind try_except].
    intros H. injection H as <-. cbn. auto.
Qed.

(** With the fees of [init], every exchange costs 30 bps. *)
Lemma get_exchange_fee_init (session : Z -> outcome (list PoolState.t))
    (min_spread_bps : option Q) (exchange_name : string) :
  get_exchange_fee (init session min_spread_bps) exchange_name = 30.
Proof.
  unfold get_exchange_fee, Py.dict_get, Py.dict_lookup. cbn.
  destruct (String.eqb exchange_name "Uniswap V2"); [reflexivity|].
  destruct (String.eqb exchange_name "SushiSwap"); reflexivity.
Qed.

(** Decides a closed comparison of rationals. *)
Ltac qcompute :=
  lazymatch goal with
  | |- approx _ _ _ =>
      unfold approx; apply Qle_bool_imp_le; vm_compute; reflexivity
  | |- ~ approx _ _ _ =>
      unfold approx; intros Habs; apply Qle_bool_iff in Habs;
      vm_compute in Habs; discriminate Habs
  | |- approx _ _ _ -> False =>
      unfold approx; intros Habs; apply Qle_bool_iff in Habs;
      vm_compute in Habs; discriminate Habs
  | |- _ == _ => vm_compute; reflexivity
  | |- _ <= _ => apply Qle_bool_imp_le; vm_compute; reflexivity
  | |- _ < _ => apply py_lt_iff; vm_compute; reflexivity
  end.

(** C8 (as the code computes it). A trade of 100 units bought at 2000
    and sold at 2020, with 30 bps on each leg and the default gas cost of
    20: [cost_to_buy = 200000], [amount_after_buy = 99.7],
    [amount_received = 99.7 * 2020 * 0.997], about 200789.8,
    [gross_profit] about 789.8, [net_profit] about 769.8, and the trade
    returned is profitable. *)
Theorem simulate_example (session : Z -> outcome (list PoolState.t))
    (opportunity : Opportunity.t) :
  Opportunity.buy_price opportunity = 2000 ->
  Opportunity.sell_price opportunity = 2020 ->
  let self := init session None in
  let legs := simulate_legs self opportunity (Some 100) in
  Legs.buy_fee_bps legs == 30 /\
  Legs.sell_fee_bps legs == 30 /\
  Legs.gas_cost_usd legs == 20 /\
  Legs.cost_to_buy legs == 200000 /\
  Legs.amount_after_buy legs == 99.7 /\
  Legs.amount_received legs == 99.7 * 2020 * 0.997 /\
  approx (Legs.amount_received legs) 200789.8 0.05 /\
  approx (Legs.gross_profit legs) 789.8 0.05 /\
  approx (Legs.net_profit legs) 769.8 0.05 /\
  exists t,
    simulate_arbitrage_trade self opportunity (Some 100) = Ret (Some t) /\
    TradeSimulation.gross_profit t = Legs.gross_profit legs /\
    TradeSimulation.net_profit t = Legs.net_profit legs /\
    TradeSimulation.is_profitable t = true.
Proof.
  intros Hbuy Hsell self legs.
  assert (Hlegs : legs =
    {| Legs.trade_amount_base := 100;
       Legs.buy_fee_bps := 30;
       Legs.sell_fee_bps := 30;
       Legs.amount_after_buy := 100 * (1 - 30 / 10000);
       Legs.amount_received :=
         100 * (1 - 30 / 10000) * 2020 * (1 - 30 / 10000);
       Legs.cost_to_buy := 100 * 2000;
       Legs.gross_profit :=
         100 * (1 - 30 / 10000) * 2020 * (1 - 30 / 10000) - 100 * 2000;
       Legs.gas_cost_usd := 20 * 500000 * 1e-9 * 2000;
       Legs.net_profit :=
         100 * (1 - 30 / 10000) * 2020 * (1 - 30 / 10000) - 100 * 2000
         - 20 * 500000 * 1e-9 * 2000 |}).
  { unfold legs, simulate_legs, self.
    rewrite !get_exchange_fee_init, Hbuy, Hsell. reflexivity. }
  destruct (simulate_arbitrage_trade_returns self opportunity (Some 100))
    as [t Ht].
  destruct (simulate_arbitrage_trade_fields _ _ _ _ Ht) as (Hg & _ & Hn & Hp).
  fold legs in Hg, Hn, Hp.
  repeat split; try (rewrite Hlegs; cbn [Legs.buy_fee_bps Legs.sell_fee_bps
    Legs.gas_cost_usd Legs.cost_to_buy Legs.amount_after_buy
    Legs.amount_received Legs.gross_profit Legs.net_profit]; qcompute).
  exists t. repeat split; try assumption.
  rewrite Hp, Hlegs. vm_compute. reflexivity.
Qed.

Lemma simulate_example_witness :
  let legs :=
    simulate_legs (init (constant_session []) None)
                  (sample_opportunity 18000000) (Some 100) in
  approx (Legs.amount_received legs) 200789.8 0.05 /\
  approx (Legs.gross_profit legs) 789.8 0.05 /\
  approx (Legs.net_profit legs) 769.8 0.05.
Proof.
  pose proof (simulate_example (constant_session [])
                (sample_opportunity 18000000) eq_refl eq_refl) as H.
  cbv zeta in H. cbv zeta. tauto.
Defined.

(** C8 as the specification prints it does not hold: the amount
    received is not within one half of 200836.8, nor the gross profit of
    836.8, nor the net profit of 816.8. *)
Lemma simulate_example_counterexample :
  let self := init (constant_session []) None in
  let legs := simulate_legs self (sample_opportunity 18000000) (Some 100) in
  ~ (Legs.cost_to_buy legs == 200000 /\
     Legs.amount_after_buy legs == 99.7 /\
     approx (Legs.amount_received legs) 200836.8 (1 # 2) /\
     approx (Legs.gross_profit legs) 836.8 (1 # 2) /\
     approx (Legs.net_profit legs) 816.8 (1 # 2) /\
     exists t,
       simulate_arbitrage_trade self (sample_opportunity 18000000) (Some 100)
       = Ret (Some t) /\
       TradeSimulation.is_profitable t = true).
Proof.
  intros self legs (_ & _ & Hrecv & _).
  revert Hrecv. qcompute.
Qed.

(** ** The price-impact example *)

(** C9 (as the code computes it). For [reserve_in = 1000],
    [reserve_out = 2000000] and [amount_in = 10]: [amount_out] is about
    19801.98, [price_before = 2000], [price_after] about 1960.59 and
    [price_impact_bps] about -197.0. *)
Theorem price_impact_example :
  exists r,
    calculate_price_impact 10 1000 2000000 = Ret (Some r) /\
    approx (PriceImpact.amount_out r) 19801.98 0.005 /\
    PriceImpact.price_before r == 2000 /\
    approx (PriceImpact.price_after r) 1960.59 0.005 /\
    approx (PriceImpact.price_impact_bps r) (-197.0) 0.05.
Proof.
  eexists. split; [vm_compute; reflexivity|].
  cbn [PriceImpact.amount_out PriceImpact.price_before
       PriceImpact.price_after PriceImpact.price_impact_bps].
  repeat split; qcompute.
Qed.

(** C9 as the specification prints it does not hold: the price after
    the trade is not within one half of 1961.58 and the impact is not
    within one half of -192.1 bps. *)
Lemma price_impact_example_counterexample :
  ~ exists r,
      calculate_price_impact 10 1000 2000000 = Ret (Some r) /\
      approx (PriceImpact.amount_out r) 19801.98 (1 # 2) /\
      PriceImpact.price_before r == 2000 /\
      approx (PriceImpact.price_after r) 1961.58 (1 # 2) /\
      approx (PriceImpact.price_impact_bps r) (-192.1) (1 # 2).
Proof.
  intros (r & Hr & _ & _ & Hafter & _).
  vm_compute in Hr. injection Hr as <-.
  revert Hafter. qcompute.
Qed.

(** ** detect_arbitrage_opportunities *)

Lemma truediv_ret (a b q : Q) :
  truediv a b = Ret q -> ~ b == 0 /\ q = a / b.
Proof.
  unfold truediv. destruct (Qeq_bool b 0) eqn:E; [discriminate|].
  intros H. injection H as <-. split; [|reflexivity].
  now apply Qeq_bool_neq.
Qed.

Lemma bind_ret {A B} (m : outcome A) (k : A -> outcome B) (b : B) :
  Py.bind m k = Ret b -> exists a, m = Ret a /\ k a = Ret b.
Proof. destruct m; cbn; [eauto|discriminate]. Qed.

Lemma power_of_ten_pos (d : N) : 0 < inject_Z (10 ^ Z.of_N d).
Proof.
  change 0 with (inject_Z 0). rewrite <- Zlt_Qlt.
  apply Z.pow_pos_nonneg; lia.
Qed.

Lemma raw_reserve_nonneg (r : N) : 0 <= inject_Z (Z.of_N r).
Proof. change 0 with (inject_Z 0). rewrite <- Zle_Qle. lia. Qed.

Lemma div_nonneg (a b : Q) : 0 <= a -> 0 < b -> 0 <= a / b.
Proof. intros Ha Hb. apply Qle_shift_div_l; [assumption|lra]. Qed.

Lemma div_pos (a b : Q) : 0 < a -> 0 < b -> 0 < a / b.
Proof. intros Ha Hb. apply Qlt_shift_div_l; [assumption|lra]. Qed.

(** A normalised state has a non-negative price. *)
Lemma normalize_price_nonneg (state : PoolState.t) (n : PoolState.normalized) :
  normalize state = Ret n -> 0 <= PoolState.price_token0_in_token1 n.
Proof.
  unfold normalize. intros H.
  apply bind_ret in H as (r0 & H0 & H).
  apply bind_ret in H as (r1 & H1 & H).
  apply bind_ret in H as (p & Hp & H).
  injection H as <-. cbn.
  apply truediv_ret in H0 as (_ & ->).
  apply truediv_ret in H1 as (_ & ->).
  apply truediv_ret in Hp as (Hnz & ->).
  pose proof (power_of_ten_pos (PoolState.token0_decimals state)) as Hd0.
  pose proof (power_of_ten_pos (PoolState.token1_decimals state)) as Hd1.
  pose proof (raw_reserve_nonneg (PoolState.reserve0 state)) as Hr0.
  pose proof (raw_reserve_nonneg (PoolState.reserve1 state)) as Hr1.
  pose proof (div_nonneg _ _ Hr0 Hd0) as Hn0.
  pose proof (div_nonneg _ _ Hr1 Hd1) as Hn1.
  apply div_nonneg; [assumption|lra].
Qed.

Lemma normalize_all_prices_nonneg (pool_states : list PoolState.t) :
  forall normalized,
    normalize_all pool_states = Ret normalized ->
    Forall (fun n => 0 <= PoolState.price_token0_in_token1 n) normalized.
Proof.
  induction pool_states as [|state rest IH]; cbn; intros normalized H.
  - injection H as <-. constructor.
  - apply bind_ret in H as (s & Hs & H).
    apply bind_ret in H as (ss & Hss & H).
    injection H as <-. constructor; [|now apply IH].
    now apply normalize_price_nonneg with (state := state).
Qed.

(** The comparison of two states with non-negative prices keeps the list
    of opportunities genuine. *)
Lemma compare_states_genuine (block_number : Z) (min_spread : Q)
    (state1 state2 : PoolState.normalized)
    (opportunities result : list Opportunity.t) :
  0 <= PoolState.price_token0_in_token1 state1 ->
  0 <= PoolState.price_token0_in_token1 state2 ->
  Forall (genuine min_spread) opportunities ->
  compare_states block_number min_spread state1 state2 opportunities
  = Ret result ->
  Forall (genuine min_spread) result.
Proof.
  intros Hp1 Hp2 Hopps. unfold compare_states.
  destruct (same_pair_other_exchange _ _);
    [|intros H; injection H as <-; assumption].
  destruct (Py.ne _ _) eqn:Hne;
    [|intros H; injection H as <-; assumption].
  apply py_ne_iff in Hne.
  destruct (Py.lt _ _) eqn:Hlt; intros H;
    apply bind_ret in H as (ratio & Hratio & H);
    apply truediv_ret in Hratio as (Hnz & ->);
    (destruct (Py.ge _ _) eqn:Hge;
       [|injection H as <-; assumption]);
    apply py_ge_iff in Hge; injection H as <-;
    (apply Forall_app; split; [assumption|]);
    (constructor; [|constructor]); unfold genuine; cbn.
  - apply py_lt_iff in Hlt. repeat split; lra.
  - assert (Hn : ~ PoolState.price_token0_in_token1 state1
                   < PoolState.price_token0_in_token1 state2).
    { intros Hc. apply py_lt_iff in Hc. congruence. }
    repeat split; lra.
Qed.

Lemma compare_with_rest_genuine (block_number : Z) (min_spread : Q)
    (state1 : PoolState.normalized) (rest : list PoolState.normalized) :
  0 <= PoolState.price_token0_in_token1 state1 ->
  Forall (fun n => 0 <= PoolState.price_token0_in_token1 n) rest ->
  forall opportunities result,
    Forall (genuine min_spread) opportunities ->
    compare_with_rest block_number min_spread state1 rest opportunities
    = Ret result ->
    Forall (genuine min_spread) result.
Proof.
  intros Hp1 Hrest. induction Hrest as [|state2 rest' Hp2 _ IH];
    cbn; intros opportunities result Hopps H.
  - injection H as <-. assumption.
  - apply bind_ret in H as (opps' & Hcmp & H).
    apply (IH opps' result); [|assumption].
    exact (compare_states_genuine block_number min_spread state1 state2
             opportunities opps' Hp1 Hp2 Hopps Hcmp).
Qed.

Lemma compare_all_genuine (block_number : Z) (min_spread : Q)
    (pool_states : list PoolState.normalized) :
  Forall (fun n => 0 <= PoolState.price_token0_in_token1 n) pool_states ->
  forall opportunities result,
    Forall (genuine min_spread) opportunities ->
    compare_all block_number min_spread pool_states opportunities
    = Ret result ->
    Forall (genuine min_spread) result.
Proof.
  intros Hall. induction Hall as [|state1 rest Hp1 Hrest IH];
    cbn; intros opportunities result Hopps H.
  - injection H as <-. assumption.
  - apply bind_ret in H as (opps' & Hcmp & H).
    apply (IH opps' result); [|assumption].
    exact (compare_with_rest_genuine block_number min_spread state1 rest
             Hp1 Hrest opportunities opps' Hopps Hcmp).
Qed.

(** The detector never raises. *)
Lemma detect_arbitrage_opportunities_returns (self : Analyzer.t)
    (block_number : Z) (min_spread_bps : option Q) :
  exists opportunities,
    detect_arbitrage_opportunities self block_number min_spread_bps
    = Ret opportunities.
Proof.
  unfold detect_arbitrage_opportunities.
  destruct (detect_body _ _ _); cbn; eauto.
Qed.

(** Everything the detector emits is genuine for the threshold in
    effect, [min_spread_bps or self.min_spread_bps]. *)
Lemma detect_arbitrage_opportunities_genuine (self : Analyzer.t)
    (block_number : Z) (min_spread_bps : option Q)
    (opportunities : list Opportunity.t) :
  detect_arbitrage_opportunities self block_number min_spread_bps
  = Ret opportunities ->
  Forall (genuine (Py.or_ min_spread_bps (Analyzer.min_spread_bps self)))
         opportunities.
Proof.
  unfold detect_arbitrage_opportunities.
  set (min_spread := Py.or_ _ _).
  destruct (detect_body self block_number min_spread) as [l|e] eqn:Hbody;
    cbn; intros H; injection H as <-; [|constructor].
  unfold detect_body in Hbody.
  apply bind_ret in Hbody as (pool_states & _ & Hbody).
  destruct (_ <? _)%nat; [injection Hbody as <-; constructor|].
  apply bind_ret in Hbody as (normalized & Hnorm & Hcmp).
  apply normalize_all_prices_nonneg in Hnorm.
  eapply compare_all_genuine; [exact Hnorm| |exact Hcmp]. constructor.
Qed.

Lemma genuine_spread_pos (min_spread : Q) (o : Opportunity.t) :
  genuine min_spread o -> 0 < Opportunity.spread_bps o.
Proof.
  intros (Hbuy & Hlt & Hspread & _). rewrite Hspread.
  assert (0 < (Opportunity.sell_price o - Opportunity.buy_price o)
              / Opportunity.buy_price o) by (apply div_pos; lra).
  lra.
Qed.

(** C5. Whatever the pool states and the threshold, every opportunity
    [detect_arbitrage_opportunities] returns has a spread of at least the
    threshold asked for, the spread is
    [(sell_price - buy_price) / buy_price * 10000], and
    [buy_price < sell_price] strictly, so no pair of equal prices is
    emitted. *)
Theorem detect_respects_threshold (self : Analyzer.t) (block_number : Z)
    (min_spread_bps : option Q) (opportunities : list Opportunity.t)
    (o : Opportunity.t) :
  detect_arbitrage_opportunities self block_number min_spread_bps
  = Ret opportunities ->
  In o opportunities ->
  requested_threshold self min_spread_bps <= Opportunity.spread_bps o /\
  Opportunity.spread_bps o
    == (Opportunity.sell_price o - Opportunity.buy_price o)
       / Opportunity.buy_price o * 10000 /\
  Opportunity.buy_price o < Opportunity.sell_price o.
Proof.
  intros Hdetect Hin.
  apply detect_arbitrage_opportunities_genuine in Hdetect.
  rewrite Forall_forall in Hdetect. specialize (Hdetect o Hin).
  pose proof (genuine_spread_pos _ _ Hdetect) as Hpos.
  destruct Hdetect as (_ & Hlt & Hspread & Hmin).
  repeat split; try assumption.
  destruct min_spread_bps as [m|]; cbn in *; [|assumption].
  destruct (Qeq_bool m 0) eqn:Hzero; [|assumption].
  apply Qeq_bool_eq in Hzero. lra.
Qed.

Lemma detect_respects_threshold_witness :
  exists o,
    detect_arbitrage_opportunities
      (init (constant_session [uniswap_pool; sushiswap_pool]) None)
      18000000 (Some 50) = Ret [o] /\
    50 <= Opportunity.spread_bps o /\
    Opportunity.buy_price o < Opportunity.sell_price o.
Proof.
  eexists. split; [vm_compute; reflexivity|].
  split;
    eapply (detect_respects_threshold
              (init (constant_session [uniswap_pool; sushiswap_pool]) None)
              18000000 (Some 50));
    first [vm_compute; reflexivity | left; reflexivity].
Defined.

(** C10. When the caller passes [min_spread_bps = 0], the call is the
    one with no threshold passed: the threshold in effect is the
    analyzer's stored [min_spread_bps] (50 for an analyzer built with the
    default), and no opportunity with a smaller spread is emitted. *)
Theorem zero_threshold_falls_back_to_default (self : Analyzer.t)
    (block_number : Z) :
  detect_arbitrage_opportunities self block_number (Some 0)
  = detect_arbitrage_opportunities self block_number None /\
  (forall opportunities o,
     detect_arbitrage_opportunities self block_number (Some 0)
     = Ret opportunities ->
     In o opportunities ->
     ~ Opportunity.spread_bps o < Analyzer.min_spread_bps self) /\
  (forall session, Analyzer.min_spread_bps (init session None) = 50).
Proof.
  split; [reflexivity|]. split; [|reflexivity].
  intros opportunities o Hdetect Hin.
  apply detect_arbitrage_opportunities_genuine in Hdetect.
  rewrite Forall_forall in Hdetect.
  destruct (Hdetect o Hin) as (_ & _ & _ & Hmin).
  cbn in Hmin. lra.
Qed.

Lemma zero_threshold_falls_back_to_default_witness :
  let self :=
    init (constant_session [uniswap_pool; sushiswap_close_pool]) None in
  detect_arbitrage_opportunities self 18000000 (Some 0) = Ret [] /\
  detect_arbitrage_opportunities self 18000000 (Some 0)
  = detect_arbitrage_opportunities self 18000000 None.
Proof.
  split; [vm_compute; reflexivity|].
  apply (zero_threshold_falls_back_to_default
           (init (constant_session [uniswap_pool; sushiswap_close_pool]) None)
           18000000).
Defined.

(** The pair dropped above has a spread of 25 bps: any positive
    threshold up to 25 emits it, the threshold 0 does not. *)
Example spread_of_25_bps_dropped_at_zero :
  let self :=
    init (constant_session [uniswap_pool; sushiswap_close_pool]) None in
  detect_arbitrage_opportunities self 18000000 (Some 0) = Ret [] /\
  exists o,
    detect_arbitrage_opportunities self 18000000 (Some 0.001) = Ret [o] /\
    Opportunity.spread_bps o == 25.
Proof.
  split; [vm_compute; reflexivity|].
  eexists. split; vm_compute; reflexivity.
Qed.

(** A state whose [reserve0] is zero makes the normalisation loop raise,
    so the detector returns the empty list for the whole block. *)
Lemma normalize_drained (state : PoolState.t) :
  PoolState.reserve0 state = 0%N -> normalize state = Raise ZeroDivisionError.
Proof.
  intros Hzero. unfold normalize. rewrite Hzero.
  pose proof (power_of_ten_pos (PoolState.token0_decimals state)) as Hd0.
  pose proof (power_of_ten_pos (PoolState.token1_decimals state)) as Hd1.
  rewrite !truediv_nonzero by lra. cbn [Py.bind].
  rewrite truediv_zero; [reflexivity|].
  unfold Qdiv. cbn. ring.
Qed.

Lemma normalize_all_drained (pool_states : list PoolState.t)
    (state : PoolState.t) :
  In state pool_states -> PoolState.reserve0 state = 0%N ->
  exists e, normalize_all pool_states = Raise e.
Proof.
  intros Hin Hzero. induction pool_states as [|s rest IH]; [contradiction|].
  cbn [normalize_all]. destruct Hin as [->|Hin].
  - rewrite (normalize_drained _ Hzero). cbn. eauto.
  - destruct (normalize s); cbn [Py.bind]; [|eauto].
    destruct (IH Hin) as [e ->]. cbn. eauto.
Qed.

Lemma detect_drained_block (self : Analyzer.t) (block_number : Z)
    (min_spread_bps : option Q) (pool_states : list PoolState.t)
    (state : PoolState.t) :
  Analyzer.Session self block_number = Ret pool_states ->
  In state pool_states -> PoolState.reserve0 state = 0%N ->
  detect_arbitrage_opportunities self block_number min_spread_bps = Ret [].
Proof.
  intros Hrows Hin Hzero.
  unfold detect_arbitrage_opportunities, detect_body.
  rewrite Hrows. cbn [Py.bind].
  destruct (_ <? _)%nat; [reflexivity|].
  destruct (normalize_all_drained _ _ Hin Hzero) as [e ->].
  reflexivity.
Qed.

(** C3 fails on the code. [uniswap_pool] and [sushiswap_pool] alone give
    the opportunity of 100 bps between them; with a pool of zero
    [reserve0] in the same block, or a pool of zero [reserve1] on the same
    pair, the call returns the empty list: the division by the zero
    reserve raises and the handler of the whole call drops every pair. *)
Theorem zero_reserve_drops_every_pair :
  (exists o,
     detect_arbitrage_opportunities
       (init (constant_session [uniswap_pool; sushiswap_pool]) None)
       18000000 None = Ret [o] /\
     Opportunity.spread_bps o == 100) /\
  detect_arbitrage_opportunities
    (init (constant_session [drained_pool; uniswap_pool; sushiswap_pool])
          None)
    18000000 None = Ret [] /\
  detect_arbitrage_opportunities
    (init (constant_session [uniswap_pool; sushiswap_pool;
                             drained_quote_pool]) None)
    18000000 None = Ret [].
Proof.
  split; [eexists; split; vm_compute; reflexivity|].
  split; vm_compute; reflexivity.
Qed.

(** ** analyze_historical_opportunities *)



Section RunnerProperties.

Variable detect : Z -> Q -> outcome (list Opportunity.t).
Variable simulate : Opportunity.t -> outcome (option TradeSimulation.t).
Variable progress_update : Z -> outcome unit.

Lemma for_opportunities_kept (opportunities : list Opportunity.t) :
  forall acc,
    fst (for_opportunities simulate opportunities acc)
    = extend acc (kept simulate opportunities).
Proof.
  unfold extend.
  induction opportunities as [|o rest IH]; intros [os ts]; cbn.
  - now rewrite !app_nil_r.
  - destruct (simulate o) as [[trade|]|e]; cbn.
    + rewrite IH. cbn. now rewrite <- !app_assoc.
    + rewrite IH. cbn. now rewrite <- !app_assoc.
    + now rewrite app_nil_r.
Qed.

Lemma block_step_contribution (from_block : Z) (min_spread : Q)
    (acc : collected) (block_number : Z) :
  block_step detect simulate progress_update from_block min_spread acc
             block_number
  = extend acc (block_contribution detect simulate block_number min_spread).
Proof.
  unfold block_step, block_body, block_contribution.
  destruct (detect block_number min_spread) as [opportunities|e].
  - rewrite <- for_opportunities_kept.
    destruct (for_opportunities simulate opportunities acc) as [acc' [u|e]];
      [|reflexivity].
    destruct (_ =? _)%Z; reflexivity.
  - unfold extend. cbn. rewrite !app_nil_r. now destruct acc.
Qed.

Lemma fold_block_step (from_block : Z) (min_spread : Q) (blocks : list Z) :
  forall acc,
    fold_left (block_step detect simulate progress_update from_block
                          min_spread) blocks acc
    = extend acc
        (flat_map (fun b => fst (block_contribution detect simulate b
                                                    min_spread)) blocks,
         flat_map (fun b => snd (block_contribution detect simulate b
                                                    min_spread)) blocks).
Proof.
  induction blocks as [|b rest IH]; intros acc; cbn [fold_left flat_map].
  - unfold extend. cbn. rewrite !app_nil_r. now destruct acc.
  - rewrite block_step_contribution, IH. unfold extend. cbn.
    now rewrite <- !app_assoc.
Qed.

(** A block processed without an exception leaves all its opportunities
    and the trade of each one that has a simulation. *)
Lemma kept_without_exception (opportunities : list Opportunity.t) :
  Forall (fun o => ~ raises (simulate o)) opportunities ->
  kept simulate opportunities
  = (opportunities, simulated simulate opportunities).
Proof.
  induction 1 as [|o rest Ho _ IH]; [reflexivity|].
  cbn. rewrite IH. cbn.
  destruct (simulate o) as [[trade|]|e]; try reflexivity.
  exfalso. apply Ho. now exists e.
Qed.



End RunnerProperties.



(** With the analyzer's own methods no block fails: the frames hold the
    opportunities of every block of the range, in order, and one trade
    per opportunity. *)
Lemma analyze_historical_opportunities_rows (self : Analyzer.t)
    (from_block to_block : Z) (min_spread_bps : option Q) :
  let min_spread := Py.or_ min_spread_bps (Analyzer.min_spread_bps self) in
  let simulate o := simulate_arbitrage_trade self o None in
  let found b :=
    match detect_arbitrage_opportunities self b (Some min_spread) with
    | Ret opportunities => opportunities
    | Raise _ => []
    end in
  let result :=
    analyze_historical_opportunities self from_block to_block min_spread_bps in
  Pandas.rows (fst result)
    = flat_map found (Py.range from_block (to_block + 1)) /\
  Pandas.rows (snd result)
    = flat_map (fun b => simulated simulate (found b))
               (Py.range from_block (to_block + 1)).
Proof.
  cbv zeta. unfold analyze_historical_opportunities, analyze_loop.
  rewrite fold_block_step. cbn [Pandas.rows Pandas.from_records fst snd
    extend all_opportunities all_trades app].
  assert (Hleaves : forall b,
    block_contribution
      (fun block_number m =>
         detect_arbitrage_opportunities self block_number (Some m))
      (fun o => simulate_arbitrage_trade self o None) b
      (Py.or_ min_spread_bps (Analyzer.min_spread_bps self))
    = (match detect_arbitrage_opportunities self b
               (Some (Py.or_ min_spread_bps (Analyzer.min_spread_bps self)))
       with Ret l => l | Raise _ => [] end,
       simulated (fun o => simulate_arbitrage_trade self o None)
         (match detect_arbitrage_opportunities self b
                  (Some (Py.or_ min_spread_bps (Analyzer.min_spread_bps self)))
          with Ret l => l | Raise _ => [] end))).
  { intros b. unfold block_contribution.
    destruct (detect_arbitrage_opportunities self b _) as [l|e];
      [|reflexivity].
    apply kept_without_exception. apply Forall_forall. intros o _ [e He].
    destruct (simulate_arbitrage_trade_returns self o None) as [t Ht].
    congruence. }
  split; apply flat_map_ext; intros b; now rewrite Hleaves.
Qed.

(** ** get_opportunity_summary *)

(** On a block range without any opportunity the runner returns two
    frames built from empty lists. *)
Example frames_of_an_empty_range :
  analyze_historical_opportunities (init (constant_session []) None)
    18000000 18000100 None
  = (Pandas.from_records Opportunity.keys [],
     Pandas.from_records TradeSimulation.keys []).
Proof. vm_compute. reflexivity. Qed.

(** C7 fails on the code. For the frames of two empty lists, which have
    no column, [df_trades['is_profitable']] raises [KeyError] in the
    unguarded entry [profitable_trades]; the handler returns the empty
    dictionary, so neither [profitable_rate] nor [avg_roi] nor any other
    key is present. The call itself does not raise. *)
Theorem summary_of_empty_lists_is_empty :
  Pandas.getitem (Pandas.from_records TradeSimulation.keys [])
                 "is_profitable" TradeSimulation.is_profitable
  = Raise (KeyError "is_profitable") /\
  exists s,
    get_opportunity_summary (Pandas.from_records Opportunity.keys [])
                            (Pandas.from_records TradeSimulation.keys [])
    = Ret s /\
    s = [] /\
    Py.dict_lookup s "profitable_rate" = None /\
    Py.dict_lookup s "avg_roi" = None.
Proof.
  split; [reflexivity|].
  exists []. repeat split.
Qed.

(** The guards do their work when the empty frames carry their columns:
    every count, rate, mean and sum is then 0. *)
Example summary_of_empty_frames_with_columns :
  exists s,
    get_opportunity_summary (Pandas.mk Opportunity.keys [])
                            (Pandas.mk TradeSimulation.keys [])
    = Ret s /\
    Forall (fun item => snd item = Pandas.Num 0) s /\
    Py.dict_lookup s "profitable_rate" = Some (Pandas.Num 0) /\
    Py.dict_lookup s "avg_roi" = Some (Pandas.Num 0).
Proof.
  eexists. split; [vm_compute; reflexivity|].
  split; [|split; reflexivity].
  repeat constructor.
Qed.

(** The summary never raises. *)
Lemma get_opportunity_summary_returns
    (df_opportunities : Pandas.DataFrame Opportunity.t)
    (df_trades : Pandas.DataFrame TradeSimulation.t) :
  exists s, get_opportunity_summary df_opportunities df_trades = Ret s.
Proof.
  unfold get_opportunity_summary.
  destruct (summary_body df_opportunities df_trades); cbn; eauto.
Qed.

(* ------------------------------------------------------------------ *)
(** * Further properties of the price-impact function                   *)
(* ------------------------------------------------------------------ *)

(** The test of the reserves comes before every division. *)
Lemma calculate_price_impact_zero_reserve_guard
    (amount_in reserve_in reserve_out : Q) :
  reserve_in == 0 \/ reserve_out == 0 ->
  calculate_price_impact amount_in reserve_in reserve_out = Ret None.
Proof.
  intros H. unfold calculate_price_impact, calculate_price_impact_body, Py.eq.
  destruct H as [H|H]; rewrite (Qeq_eq_bool _ _ H);
    [|rewrite orb_true_r]; reflexivity.
Qed.

(** A call that returns [None] had a zero reserve or a cancelled input
    reserve. *)
Lemma calculate_price_impact_none_or_some
    (amount_in reserve_in reserve_out : Q) :
  calculate_price_impact amount_in reserve_in reserve_out = Ret None ->
  reserve_in == 0 \/ reserve_out == 0 \/ reserve_in + amount_in == 0.
Proof.
  intros Hnone.
  destruct (Qeq_dec reserve_in 0) as [|Hin]; [now left|].
  destruct (Qeq_dec reserve_out 0) as [|Hout]; [now right; left|].
  destruct (Qeq_dec (reserve_in + amount_in) 0) as [|Hsum];
    [now right; right|].
  exfalso. revert Hnone.
  unfold calculate_price_impact, calculate_price_impact_body.
  rewrite (py_eq_false _ _ Hin), (py_eq_false _ _ Hout). cbn [orb].
  rewrite (truediv_nonzero _ _ Hsum). cbn [Py.bind].
  rewrite (truediv_nonzero _ _ Hin). cbn [Py.bind].
  rewrite (truediv_nonzero _ _ Hsum). cbn [Py.bind].
  rewrite truediv_nonzero; [cbn; discriminate|].
  intros H. apply Hout.
  rewrite <- (Qmult_div_r reserve_out reserve_in Hin), H. ring.
Qed.

(** The closed forms of the four quantities when no divisor vanishes. *)
Lemma calculate_price_impact_closed (amount_in reserve_in reserve_out : Q)
    (r : PriceImpact.t) :
  calculate_price_impact amount_in reserve_in reserve_out = Ret (Some r) ->
  ~ reserve_in == 0 /\ ~ reserve_out == 0 /\ ~ reserve_in + amount_in == 0 /\
  PriceImpact.amount_in r = amount_in /\
  PriceImpact.amount_out r
    == reserve_out * amount_in / (reserve_in + amount_in) /\
  PriceImpact.price_before r == reserve_out / reserve_in /\
  PriceImpact.price_after r
    == reserve_out * reserve_in
       / ((reserve_in + amount_in) * (reserve_in + amount_in)) /\
  PriceImpact.price_impact r
    == reserve_in * reserve_in
       / ((reserve_in + amount_in) * (reserve_in + amount_in)) - 1 /\
  PriceImpact.price_impact_bps r == PriceImpact.price_impact r * 10000.
Proof.
  unfold calculate_price_impact, calculate_price_impact_body, Py.eq.
  destruct (Qeq_bool reserve_in 0) eqn:Hin; [cbn; discriminate|].
  destruct (Qeq_bool reserve_out 0) eqn:Hout; [cbn; discriminate|].
  apply Qeq_bool_neq in Hin, Hout. cbn [orb].
  destruct (truediv (reserve_out * amount_in) (reserve_in + amount_in))
    as [amount_out|e] eqn:H1; [|cbn; discriminate].
  apply truediv_ret in H1 as (Hsum & ->). cbn [Py.bind].
  rewrite (truediv_nonzero _ _ Hin). cbn [Py.bind].
  rewrite (truediv_nonzero _ _ Hsum). cbn [Py.bind].
  destruct (truediv _ (reserve_out / reserve_in)) as [impact|e] eqn:H4;
    [|cbn; discriminate].
  apply truediv_ret in H4 as (Hpb & ->). cbn [Py.bind try_except].
  intros H. injection H as <-. cbn.
  repeat split; try assumption; try reflexivity; field; auto.
Qed.

(** X1. [calculate_price_impact] returns [None] exactly when a reserve
    is zero or the amount cancels the input reserve
    ([reserve_in + amount_in = 0]); in every other case it returns a
    result. It never raises. *)
Theorem calculate_price_impact_none_iff (amount_in reserve_in reserve_out : Q) :
  (calculate_price_impact amount_in reserve_in reserve_out = Ret None
   <-> reserve_in == 0 \/ reserve_out == 0 \/ reserve_in + amount_in == 0) /\
  (exists r,
     calculate_price_impact amount_in reserve_in reserve_out = Ret r).
Proof.
  split; [|apply calculate_price_impact_returns].
  split.
  - apply calculate_price_impact_none_or_some.
  - intros [H|[H|H]].
    + apply calculate_price_impact_zero_reserve_guard. now left.
    + apply calculate_price_impact_zero_reserve_guard. now right.
    + unfold calculate_price_impact, calculate_price_impact_body.
      destruct (Py.eq reserve_in 0 || Py.eq reserve_out 0); [reflexivity|].
      now rewrite (truediv_zero _ _ H).
Qed.

Lemma calculate_price_impact_none_iff_witness :
  calculate_price_impact (-1000) 1000 2000000 = Ret None /\
  (calculate_price_impact 10 1000 2000000 = Ret None -> False).
Proof.
  split.
  - apply (calculate_price_impact_none_iff (-1000) 1000 2000000).
    right; right. reflexivity.
  - intros H.
    apply (calculate_price_impact_none_iff 10 1000 2000000) in H.
    destruct H as [H|[H|H]]; vm_compute in H; discriminate H.
Defined.

(** A positive amount against positive reserves, in exact terms. *)
Lemma calculate_price_impact_positive
    (amount_in reserve_in reserve_out : Q) :
  0 < amount_in -> 0 < reserve_in -> 0 < reserve_out ->
  exists r,
    calculate_price_impact amount_in reserve_in reserve_out = Ret (Some r) /\
    0 < PriceImpact.amount_out r < reserve_out /\
    0 < PriceImpact.price_after r < PriceImpact.price_before r /\
    -10000 < PriceImpact.price_impact_bps r < 0.
Proof.
  intros Ha Hin Hout.
  destruct (calculate_price_impact_returns amount_in reserve_in reserve_out)
    as [[r|] Hr].
  2:{ pose proof (calculate_price_impact_none_or_some amount_in reserve_in
                    reserve_out Hr) as [H|[H|H]]; lra. }
  exists r. split; [assumption|].
  apply calculate_price_impact_closed in Hr
    as (_ & _ & _ & _ & Hao & Hpb & Hpa & Himp & Hbps).
  set (s := reserve_in + amount_in) in *.
  assert (Hs : 0 < s) by (unfold s; lra).
  assert (Hq : 0 < reserve_in / s < 1).
  { split; [apply div_pos; assumption|].
    apply Qlt_shift_div_r; [assumption|unfold s; lra]. }
  assert (Hsq : reserve_in * reserve_in / (s * s)
                == (reserve_in / s) * (reserve_in / s)) by (field; lra).
  assert (Hao' : PriceImpact.amount_out r == reserve_out * (amount_in / s))
    by (rewrite Hao; field; lra).
  assert (Hfrac : 0 < amount_in / s < 1).
  { split; [apply div_pos; assumption|].
    apply Qlt_shift_div_r; [assumption|unfold s; lra]. }
  assert (Hpa' : PriceImpact.price_after r
                 == PriceImpact.price_before r
                    * ((reserve_in / s) * (reserve_in / s)))
    by (rewrite Hpa, Hpb; field; lra).
  assert (Hpb0 : 0 < PriceImpact.price_before r)
    by (rewrite Hpb; apply div_pos; assumption).
  set (q := reserve_in / s) in *. set (f := amount_in / s) in *.
  set (pb := PriceImpact.price_before r) in *.
  assert (Hqq : 0 < q * q < 1) by nra.
  repeat split.
  - rewrite Hao'. nra.
  - rewrite Hao'. nra.
  - rewrite Hpa'. nra.
  - rewrite Hpa'. nra.
  - rewrite Hbps, Himp, Hsq. lra.
  - rewrite Hbps, Himp, Hsq. lra.
Qed.





(* ------------------------------------------------------------------ *)
(** * The price functions of the event parser                           *)
(* ------------------------------------------------------------------ *)

(** X6. The parser's [calculate_price_impact], which does not test the
    reserves, returns the same as the analyzer's on every input: with a
    zero reserve one of its divisions raises and its handler returns
    [None] as well. *)
Theorem parser_price_impact_agrees (amount_in reserve_in reserve_out : Q) :
  EventParser.calculate_price_impact amount_in reserve_in reserve_out
  = calculate_price_impact amount_in reserve_in reserve_out.
Proof.
  unfold EventParser.calculate_price_impact, calculate_price_impact,
    EventParser.calculate_price_impact_body, calculate_price_impact_body,
    Py.eq.
  destruct (Qeq_bool reserve_in 0) eqn:Hin.
  - apply Qeq_bool_eq in Hin. cbn [orb try_except].
    destruct (truediv (reserve_out * amount_in) (reserve_in + amount_in));
      [|reflexivity].
    cbn [Py.bind]. now rewrite (truediv_zero _ _ Hin).
  - destruct (Qeq_bool reserve_out 0) eqn:Hout; [|reflexivity].
    apply Qeq_bool_eq in Hout. apply Qeq_bool_neq in Hin.
    cbn [orb try_except].
    destruct (truediv (reserve_out * amount_in) (reserve_in + amount_in))
      as [amount_out|e]; [|reflexivity].
    cbn [Py.bind]. rewrite (truediv_nonzero _ _ Hin). cbn [Py.bind].
    destruct (truediv (reserve_out - amount_out) (reserve_in + amount_in))
      as [price_after|e]; [|reflexivity].
    cbn [Py.bind]. rewrite truediv_zero; [reflexivity|].
    rewrite Hout. field. assumption.
Qed.

(** X7. [calculate_pool_price] returns [None] exactly when a reserve is
    zero. Otherwise it returns a result with the prices
    [reserve1 / reserve0] and [reserve0 / reserve1], [inverse_price] the
    inverse of the first, and the symbols it was given. It never
    raises. *)
Theorem calculate_pool_price_defined (reserve0 reserve1 : Q)
    (token0_symbol token1_symbol : string) :
  (EventParser.calculate_pool_price reserve0 reserve1 token0_symbol
                                    token1_symbol = Ret None
   <-> reserve0 == 0 \/ reserve1 == 0) /\
  (forall p,
     EventParser.calculate_pool_price reserve0 reserve1 token0_symbol
                                      token1_symbol = Ret (Some p) ->
     PoolPrice.price_token0_in_token1 p == reserve1 / reserve0 /\
     PoolPrice.price_token1_in_token0 p == reserve0 / reserve1 /\
     PoolPrice.inverse_price p == 1 / PoolPrice.price_token0_in_token1 p /\
     PoolPrice.token0_symbol p = token0_symbol /\
     PoolPrice.token1_symbol p = token1_symbol) /\
  (exists r,
     EventParser.calculate_pool_price reserve0 reserve1 token0_symbol
                                      token1_symbol = Ret r).
Proof.
  unfold EventParser.calculate_pool_price,
    EventParser.calculate_pool_price_body, Py.eq.
  destruct (Qeq_bool reserve0 0) eqn:E0.
  - apply Qeq_bool_eq in E0. cbn [orb try_except].
    split; [split; [now left|reflexivity]|].
    split; [discriminate|eauto].
  - destruct (Qeq_bool reserve1 0) eqn:E1.
    + apply Qeq_bool_eq in E1. cbn [orb try_except].
      split; [split; [now right|reflexivity]|].
      split; [discriminate|eauto].
    + apply Qeq_bool_neq in E0, E1. cbn [orb].
      assert (Hp : ~ reserve1 / reserve0 == 0).
      { intros H. apply E1.
        rewrite <- (Qmult_div_r reserve1 reserve0 E0), H. ring. }
      rewrite (truediv_nonzero _ _ E0). cbn [Py.bind].
      rewrite (truediv_nonzero _ _ E1). cbn [Py.bind].
      rewrite (truediv_nonzero _ _ Hp). cbn [Py.bind try_except].
      split; [split; [discriminate|intros [H|H]; contradiction]|].
      split; [|eauto].
      intros p H. injection H as <-. cbn. repeat split; reflexivity.
Qed.

Lemma calculate_pool_price_defined_witness :
  EventParser.calculate_pool_price 0 2000000 "WETH" "USDC" = Ret None /\
  exists p,
    EventParser.calculate_pool_price 1000 2000000 "WETH" "USDC"
    = Ret (Some p) /\
    PoolPrice.price_token0_in_token1 p == 2000 /\
    PoolPrice.token0_symbol p = "WETH"%string.
Proof.
  split.
  - apply (calculate_pool_price_defined 0 2000000 "WETH" "USDC").
    left. reflexivity.
  - destruct (calculate_pool_price_defined 1000 2000000 "WETH" "USDC")
      as (_ & Hfields & _).
    eexists. split; [vm_compute; reflexivity|].
    edestruct Hfields as (H01 & _ & _ & H0 & _); [vm_compute; reflexivity|].
    split; [rewrite H01; reflexivity|exact H0].
Defined.

(* ------------------------------------------------------------------ *)
(** * Further properties of the detector                                *)
(* ------------------------------------------------------------------ *)

(** X8. A failed query and a block with fewer than two rows both give
    the empty list: the exception of the database is swallowed, and one
    row alone is never compared, not even normalised. *)
Theorem detect_needs_two_rows (self : Analyzer.t) (block_number : Z)
    (min_spread_bps : option Q) :
  (forall e,
     Analyzer.Session self block_number = Raise e ->
     detect_arbitrage_opportunities self block_number min_spread_bps
     = Ret []) /\
  (forall pool_states,
     Analyzer.Session self block_number = Ret pool_states ->
     (List.length pool_states < 2)%nat ->
     detect_arbitrage_opportunities self block_number min_spread_bps
     = Ret []).
Proof.
  unfold detect_arbitrage_opportunities, detect_body. split.
  - intros e ->. reflexivity.
  - intros pool_states -> Hlen. cbn [Py.bind].
    apply Nat.ltb_lt in Hlen. now rewrite Hlen.
Qed.

Lemma detect_needs_two_rows_witness :
  detect_arbitrage_opportunities
    (init (fun _ => Raise (RuntimeError "no such table: events_syncs")) None)
    18000000 None = Ret [] /\
  detect_arbitrage_opportunities
    (init (constant_session [drained_pool]) None) 18000000 None = Ret [].
Proof.
  split.
  - destruct (detect_needs_two_rows
                (init (fun _ => Raise (RuntimeError
                                         "no such table: events_syncs")) None)
                18000000 None) as [Hfail _].
    apply (Hfail (RuntimeError "no such table: events_syncs")).
    reflexivity.
  - destruct (detect_needs_two_rows
                (init (constant_session [drained_pool]) None)
                18000000 None) as [_ Hfew].
    apply (Hfew [drained_pool]); [reflexivity|cbn; lia].
Defined.

(** X9. One row with [reserve0 = 0] among the rows of a block empties
    the result of the whole block, whatever the other rows and the
    threshold. *)
Theorem zero_base_reserve_empties_block (self : Analyzer.t) (block_number : Z)
    (min_spread_bps : option Q) (pool_states : list PoolState.t)
    (state : PoolState.t) :
  Analyzer.Session self block_number = Ret pool_states ->
  In state pool_states -> PoolState.reserve0 state = 0%N ->
  detect_arbitrage_opportunities self block_number min_spread_bps = Ret [].
Proof.
  intros Hrows Hin Hzero.
  exact (detect_drained_block self block_number min_spread_bps pool_states
           state Hrows Hin Hzero).
Qed.

Lemma zero_base_reserve_empties_block_witness :
  detect_arbitrage_opportunities
    (init (constant_session [uniswap_pool; drained_pool; sushiswap_pool]) None)
    18000000 (Some 1) = Ret [].
Proof.
  apply (zero_base_reserve_empties_block
           (init (constant_session
                    [uniswap_pool; drained_pool; sushiswap_pool]) None)
           18000000 (Some 1)
           [uniswap_pool; drained_pool; sushiswap_pool] drained_pool).
  - reflexivity.
  - right; left. reflexivity.
  - reflexivity.
Defined.

(** When no two rows are the same pair on different exchanges, no
    comparison appends anything. *)
Lemma compare_with_rest_no_candidate (block_number : Z) (min_spread : Q)
    (state1 : PoolState.normalized) (rest : list PoolState.normalized)
    (opportunities : list Opportunity.t) :
  Forall (fun state2 =>
            same_pair_other_exchange (PoolState.row state1)
                                     (PoolState.row state2) = false) rest ->
  compare_with_rest block_number min_spread state1 rest opportunities
  = Ret opportunities.
Proof.
  induction 1 as [|state2 rest' H2 _ IH]; [reflexivity|].
  cbn [compare_with_rest]. unfold compare_states. rewrite H2.
  cbn [Py.bind]. exact IH.
Qed.

Lemma normalize_row (state : PoolState.t) (n : PoolState.normalized) :
  normalize state = Ret n -> PoolState.row n = state.
Proof.
  unfold normalize. intros H.
  apply bind_ret in H as (r0 & _ & H).
  apply bind_ret in H as (r1 & _ & H).
  apply bind_ret in H as (p & _ & H).
  now injection H as <-.
Qed.

Lemma normalize_all_rows (pool_states : list PoolState.t) :
  forall normalized,
    normalize_all pool_states = Ret normalized ->
    map PoolState.row normalized = pool_states.
Proof.
  induction pool_states as [|state rest IH]; cbn; intros normalized H.
  - now injection H as <-.
  - apply bind_ret in H as (s & Hs & H).
    apply bind_ret in H as (ss & Hss & H).
    injection H as <-. cbn.
    now rewrite (normalize_row _ _ Hs), (IH _ Hss).
Qed.

Lemma compare_all_no_candidate (block_number : Z) (min_spread : Q)
    (pool_states : list PoolState.normalized) :
  ForallOrdPairs (fun s1 s2 =>
                    same_pair_other_exchange (PoolState.row s1)
                                             (PoolState.row s2) = false)
                 pool_states ->
  forall opportunities,
    compare_all block_number min_spread pool_states opportunities
    = Ret opportunities.
Proof.
  induction 1 as [|state1 rest Hrest _ IH]; intros opportunities;
    [reflexivity|].
  cbn [compare_all].
  rewrite (compare_with_rest_no_candidate _ _ _ _ _ Hrest).
  cbn [Py.bind]. apply IH.
Qed.

(** X10. If no two rows of the block are the same token pair on
    different exchanges (all on one exchange, or all on different pairs),
    the result is empty. *)
Theorem detect_without_candidates (self : Analyzer.t) (block_number : Z)
    (min_spread_bps : option Q) (pool_states : list PoolState.t) :
  Analyzer.Session self block_number = Ret pool_states ->
  ForallOrdPairs (fun s1 s2 => same_pair_other_exchange s1 s2 = false)
                 pool_states ->
  detect_arbitrage_opportunities self block_number min_spread_bps = Ret [].
Proof.
  intros Hrows Hpairs.
  unfold detect_arbitrage_opportunities, detect_body.
  rewrite Hrows. cbn [Py.bind].
  destruct (_ <? _)%nat; [reflexivity|].
  destruct (normalize_all pool_states) as [normalized|e] eqn:Hnorm;
    [|reflexivity].
  cbn [Py.bind].
  rewrite compare_all_no_candidate; [reflexivity|].
  apply normalize_all_rows in Hnorm. subst pool_states.
  clear Hrows. induction normalized as [|n rest IH]; [constructor|].
  cbn in Hpairs. inversion Hpairs as [|? ? Hhead Htail]; subst.
  constructor; [|now apply IH].
  rewrite Forall_map in Hhead. exact Hhead.
Qed.

Lemma detect_without_candidates_witness :
  detect_arbitrage_opportunities
    (init (constant_session [uniswap_pool; uniswap_second_pool]) None)
    18000000 (Some 1) = Ret [].
Proof.
  apply (detect_without_candidates
           (init (constant_session [uniswap_pool; uniswap_second_pool]) None)
           18000000 (Some 1) [uniswap_pool; uniswap_second_pool]).
  - reflexivity.
  - repeat constructor.
Defined.

(** What the normalisation loop produces. *)
Lemma normalize_spec (state : PoolState.t) (n : PoolState.normalized) :
  normalize state = Ret n -> PoolState.row n = state /\ normalized_of n.
Proof.
  intros H. pose proof (normalize_row _ _ H) as Hrow.
  split; [assumption|]. unfold normalized_of. rewrite Hrow.
  unfold normalize in H.
  apply bind_ret in H as (r0 & H0 & H).
  apply bind_ret in H as (r1 & H1 & H).
  apply bind_ret in H as (p & Hp & H).
  injection H as <-. cbn.
  apply truediv_ret in H0 as (_ & ->).
  apply truediv_ret in H1 as (_ & ->).
  apply truediv_ret in Hp as (Hnz & ->).
  pose proof (power_of_ten_pos (PoolState.token0_decimals state)) as Hd0.
  pose proof (power_of_ten_pos (PoolState.token1_decimals state)) as Hd1.
  pose proof (raw_reserve_nonneg (PoolState.reserve0 state)) as Hr0.
  pose proof (raw_reserve_nonneg (PoolState.reserve1 state)) as Hr1.
  pose proof (div_nonneg _ _ Hr0 Hd0) as Hn0.
  pose proof (div_nonneg _ _ Hr1 Hd1) as Hn1.
  unfold price_of, adjusted0, adjusted1.
  repeat split; try reflexivity; try assumption. lra.
Qed.

Lemma normalize_all_spec (pool_states : list PoolState.t) :
  forall normalized,
    normalize_all pool_states = Ret normalized ->
    Forall normalized_of normalized.
Proof.
  induction pool_states as [|state rest IH]; cbn; intros normalized H.
  - injection H as <-. constructor.
  - apply bind_ret in H as (s & Hs & H).
    apply bind_ret in H as (ss & Hss & H).
    injection H as <-. constructor; [|now apply IH].
    now apply normalize_spec in Hs.
Qed.

(** A positive quotient of a non-negative by a positive number has a
    positive numerator. *)
Lemma numerator_pos (a b : Q) : 0 <= a -> 0 < b -> ~ a / b == 0 -> 0 < a.
Proof.
  intros Ha Hb Hq.
  destruct (Qeq_dec a 0) as [E|E]; [|lra].
  exfalso. apply Hq. rewrite E. field. lra.
Qed.

Lemma compare_states_coherent (block_number : Z) (min_spread : Q)
    (state1 state2 : PoolState.normalized)
    (opportunities result : list Opportunity.t) :
  normalized_of state1 -> normalized_of state2 ->
  Forall (coherent block_number) opportunities ->
  compare_states block_number min_spread state1 state2 opportunities
  = Ret result ->
  Forall (coherent block_number) result.
Proof.
  intros (E10 & E11 & E1p & H10 & H11) (E20 & E21 & E2p & H20 & H21) Hopps.
  unfold compare_states.
  destruct (same_pair_other_exchange _ _) eqn:Hsame;
    [|intros H; injection H as <-; assumption].
  destruct (Py.ne _ _) eqn:Hne;
    [|intros H; injection H as <-; assumption].
  apply py_ne_iff in Hne.
  assert (Hex : PoolState.exchange_name (PoolState.row state1)
                <> PoolState.exchange_name (PoolState.row state2)).
  { unfold same_pair_other_exchange in Hsame.
    apply andb_true_iff in Hsame as [_ Hsame].
    apply negb_true_iff in Hsame. now apply String.eqb_neq. }
  assert (Hp1 : 0 <= PoolState.price_token0_in_token1 state1)
    by (rewrite E1p; apply div_nonneg; assumption).
  assert (Hp2 : 0 <= PoolState.price_token0_in_token1 state2)
    by (rewrite E2p; apply div_nonneg; assumption).
  destruct (Py.lt _ _) eqn:Hlt; intros H;
    apply bind_ret in H as (ratio & Hratio & H);
    apply truediv_ret in Hratio as (Hnz & ->);
    (destruct (Py.ge _ _) eqn:Hge;
       [|injection H as <-; assumption]);
    injection H as <-;
    (apply Forall_app; split; [assumption|]);
    (constructor; [|constructor]); unfold coherent; cbn.
  - apply py_lt_iff in Hlt.
    assert (Hnz2 : ~ PoolState.price_token0_in_token1 state2 == 0) by lra.
    rewrite E1p in Hnz. rewrite E2p in Hnz2.
    pose proof (numerator_pos _ _ H11 H10 Hnz).
    pose proof (numerator_pos _ _ H21 H20 Hnz2).
    rewrite E10, E11, E20, E21, E1p, E2p.
    repeat split; try assumption; reflexivity.
  - assert (Hn : ~ PoolState.price_token0_in_token1 state1
                   < PoolState.price_token0_in_token1 state2).
    { intros Hc. apply py_lt_iff in Hc. congruence. }
    assert (Hnz1 : ~ PoolState.price_token0_in_token1 state1 == 0) by lra.
    rewrite E2p in Hnz. rewrite E1p in Hnz1.
    pose proof (numerator_pos _ _ H21 H20 Hnz).
    pose proof (numerator_pos _ _ H11 H10 Hnz1).
    rewrite E10, E11, E20, E21, E1p, E2p.
    repeat split; try assumption; try reflexivity.
    intros E. apply Hex. now symmetry.
Qed.

Lemma compare_with_rest_coherent (block_number : Z) (min_spread : Q)
    (state1 : PoolState.normalized) (rest : list PoolState.normalized) :
  normalized_of state1 -> Forall normalized_of rest ->
  forall opportunities result,
    Forall (coherent block_number) opportunities ->
    compare_with_rest block_number min_spread state1 rest opportunities
    = Ret result ->
    Forall (coherent block_number) result.
Proof.
  intros H1 Hrest. induction Hrest as [|state2 rest' H2 _ IH];
    cbn; intros opportunities result Hopps H.
  - injection H as <-. assumption.
  - apply bind_ret in H as (opps' & Hcmp & H).
    apply (IH opps' result); [|assumption].
    exact (compare_states_coherent block_number min_spread state1 state2
             opportunities opps' H1 H2 Hopps Hcmp).
Qed.

Lemma compare_all_coherent (block_number : Z) (min_spread : Q)
    (pool_states : list PoolState.normalized) :
  Forall normalized_of pool_states ->
  forall opportunities result,
    Forall (coherent block_number) opportunities ->
    compare_all block_number min_spread pool_states opportunities
    = Ret result ->
    Forall (coherent block_number) result.
Proof.
  intros Hall. induction Hall as [|state1 rest H1 Hrest IH];
    cbn; intros opportunities result Hopps H.
  - injection H as <-. assumption.
  - apply bind_ret in H as (opps' & Hcmp & H).
    apply (IH opps' result); [|assumption].
    exact (compare_with_rest_coherent block_number min_spread state1 rest
             H1 Hrest opportunities opps' Hopps Hcmp).
Qed.

Lemma detect_arbitrage_opportunities_coherent (self : Analyzer.t)
    (block_number : Z) (min_spread_bps : option Q)
    (opportunities : list Opportunity.t) :
  detect_arbitrage_opportunities self block_number min_spread_bps
  = Ret opportunities ->
  Forall (coherent block_number) opportunities.
Proof.
  unfold detect_arbitrage_opportunities.
  set (min_spread := Py.or_ _ _).
  destruct (detect_body self block_number min_spread) as [l|e] eqn:Hbody;
    cbn; intros H; injection H as <-; [|constructor].
  unfold detect_body in Hbody.
  apply bind_ret in Hbody as (pool_states & _ & Hbody).
  destruct (_ <? _)%nat; [injection Hbody as <-; constructor|].
  apply bind_ret in Hbody as (normalized & Hnorm & Hcmp).
  apply normalize_all_spec in Hnorm.
  eapply compare_all_coherent; [exact Hnorm| |exact Hcmp]. constructor.
Qed.

(** X11. Every opportunity the detector returns is coherent: it carries
    the block number of the call, its two exchanges differ, its four
    reserves are positive, each price is the ratio of the reserves of its
    pool, and [spread_percentage] is a hundredth of [spread_bps]. *)
Theorem detect_opportunities_coherent (self : Analyzer.t) (block_number : Z)
    (min_spread_bps : option Q) (opportunities : list Opportunity.t)
    (o : Opportunity.t) :
  detect_arbitrage_opportunities self block_number min_spread_bps
  = Ret opportunities ->
  In o opportunities ->
  Opportunity.block_number o = block_number /\
  Opportunity.buy_exchange o <> Opportunity.sell_exchange o /\
  0 < Opportunity.buy_reserve0 o /\
  0 < Opportunity.buy_reserve1 o /\
  0 < Opportunity.sell_reserve0 o /\
  0 < Opportunity.sell_reserve1 o /\
  Opportunity.buy_price o
    == Opportunity.buy_reserve1 o / Opportunity.buy_reserve0 o /\
  Opportunity.sell_price o
    == Opportunity.sell_reserve1 o / Opportunity.sell_reserve0 o /\
  Opportunity.spread_percentage o == Opportunity.spread_bps o / 100.
Proof.
  intros Hdetect Hin.
  apply detect_arbitrage_opportunities_coherent in Hdetect.
  rewrite Forall_forall in Hdetect. exact (Hdetect o Hin).
Qed.

Lemma detect_opportunities_coherent_witness :
  exists o,
    detect_arbitrage_opportunities
      (init (constant_session [sushiswap_pool; uniswap_pool]) None)
      18000000 None = Ret [o] /\
    Opportunity.buy_exchange o <> Opportunity.sell_exchange o /\
    0 < Opportunity.buy_reserve0 o.
Proof.
  eexists. split; [vm_compute; reflexivity|].
  split;
    eapply (detect_opportunities_coherent
              (init (constant_session [sushiswap_pool; uniswap_pool]) None)
              18000000 None);
    first [vm_compute; reflexivity | left; reflexivity].
Defined.

(** ** The order of the rows *)

Lemma same_pair_other_exchange_sym (s1 s2 : PoolState.t) :
  same_pair_other_exchange s1 s2 = same_pair_other_exchange s2 s1.
Proof.
  unfold same_pair_other_exchange.
  now rewrite (String.eqb_sym (PoolState.token0_address s1)),
    (String.eqb_sym (PoolState.token1_address s1)),
    (String.eqb_sym (PoolState.exchange_name s1)).
Qed.

(** Comparing two states in either order raises in both or appends the
    same deal in both. *)
Lemma compare_states_swap (block_number : Z) (min_spread : Q)
    (n1 n2 : PoolState.normalized) :
  match compare_states block_number min_spread n1 n2 [],
        compare_states block_number min_spread n2 n1 [] with
  | Ret l1, Ret l2 => Forall2 same_deal l1 l2
  | Raise _, Raise _ => True
  | _, _ => False
  end.
Proof.
  unfold compare_states.
  rewrite (same_pair_other_exchange_sym (PoolState.row n2)).
  destruct (same_pair_other_exchange _ _); [|constructor].
  unfold Py.ne.
  rewrite (Qeq_bool_comm (PoolState.price_token0_in_token1 n2)).
  destruct (Qeq_bool _ _) eqn:Hne; cbn [negb]; [constructor|].
  apply Qeq_bool_neq in Hne.
  destruct (Py.lt (PoolState.price_token0_in_token1 n1) _) eqn:H12.
  - assert (H21 : Py.lt (PoolState.price_token0_in_token1 n2)
                        (PoolState.price_token0_in_token1 n1) = false).
    { apply py_lt_iff in H12.
      destruct (Py.lt _ _) eqn:E; [|reflexivity].
      apply py_lt_iff in E. lra. }
    rewrite H21.
    destruct (truediv _ _); cbn [Py.bind]; [|exact I].
    destruct (Py.ge _ _); [|constructor].
    cbn [app]. constructor; [|constructor].
    unfold same_deal; cbn. repeat split.
  - assert (H21 : Py.lt (PoolState.price_token0_in_token1 n2)
                        (PoolState.price_token0_in_token1 n1) = true).
    { apply py_lt_iff.
      assert (~ PoolState.price_token0_in_token1 n1
                < PoolState.price_token0_in_token1 n2)
        by (intros Hc; apply py_lt_iff in Hc; congruence).
      lra. }
    rewrite H21.
    destruct (truediv _ _); cbn [Py.bind]; [|exact I].
    destruct (Py.ge _ _); [|constructor].
    cbn [app]. constructor; [|constructor].
    unfold same_deal; cbn. repeat split.
Qed.

(** The detector on two rows is one comparison of the normalised rows. *)
Lemma detect_body_two_rows (self : Analyzer.t) (block_number : Z)
    (min_spread : Q) (a c : PoolState.t) :
  Analyzer.Session self block_number = Ret [a; c] ->
  detect_body self block_number min_spread
  = (na <- normalize a ;;
     nc <- normalize c ;;
     compare_states block_number min_spread na nc []).
Proof.
  intros Hrows. unfold detect_body. rewrite Hrows. cbn.
  destruct (normalize a) as [na|e]; [|reflexivity]. cbn.
  destruct (normalize c) as [nc|e]; [|reflexivity]. cbn.
  destruct (compare_states _ _ _ _ _); reflexivity.
Qed.

(** X12. The result does not depend on the order of two rows: listed
    either way, the call finds the same deal or none - same buy and sell
    exchange and pair, same prices, spread and reserves - so the spread in
    basis points is the same whichever pool comes first. *)
Theorem detect_order_invariant (self1 self2 : Analyzer.t) (block_number : Z)
    (min_spread_bps : option Q) (a c : PoolState.t) :
  Analyzer.Session self1 block_number = Ret [a; c] ->
  Analyzer.Session self2 block_number = Ret [c; a] ->
  Analyzer.min_spread_bps self1 = Analyzer.min_spread_bps self2 ->
  Forall2 same_deal
    (found (detect_arbitrage_opportunities self1 block_number min_spread_bps))
    (found (detect_arbitrage_opportunities self2 block_number min_spread_bps)).
Proof.
  intros H1 H2 Hmin. unfold detect_arbitrage_opportunities.
  rewrite (detect_body_two_rows _ _ _ _ _ H1),
    (detect_body_two_rows _ _ _ _ _ H2), Hmin.
  set (min_spread := Py.or_ _ _).
  destruct (normalize a) as [na|e1]; destruct (normalize c) as [nc|e2];
    cbn; try constructor.
  pose proof (compare_states_swap block_number min_spread na nc) as Hswap.
  destruct (compare_states block_number min_spread na nc []);
    destruct (compare_states block_number min_spread nc na []);
    cbn; try contradiction; [assumption|constructor].
Qed.

Lemma detect_order_invariant_witness :
  exists o1 o2,
    detect_arbitrage_opportunities
      (init (constant_session [uniswap_pool; sushiswap_pool]) None)
      18000000 None = Ret [o1] /\
    detect_arbitrage_opportunities
      (init (constant_session [sushiswap_pool; uniswap_pool]) None)
      18000000 None = Ret [o2] /\
    Forall2 same_deal [o1] [o2].
Proof.
  eexists. eexists.
  split; [vm_compute; reflexivity|]. split; [vm_compute; reflexivity|].
  exact (detect_order_invariant
           (init (constant_session [uniswap_pool; sushiswap_pool]) None)
           (init (constant_session [sushiswap_pool; uniswap_pool]) None)
           18000000 None uniswap_pool sushiswap_pool
           eq_refl eq_refl eq_refl).
Defined.

(** A row with a non-zero adjusted base reserve normalises to its
    adjusted reserves and its price. *)
Lemma normalize_ok (state : PoolState.t) :
  ~ adjusted0 state == 0 ->
  normalize state
  = Ret {| PoolState.row := state;
           PoolState.reserve0_normalized := adjusted0 state;
           PoolState.reserve1_normalized := adjusted1 state;
           PoolState.price_token0_in_token1 := price_of state |}.
Proof.
  intros Hnz. unfold normalize.
  pose proof (power_of_ten_pos (PoolState.token0_decimals state)) as Hd0.
  pose proof (power_of_ten_pos (PoolState.token1_decimals state)) as Hd1.
  rewrite !truediv_nonzero by lra. cbn [Py.bind].
  fold (adjusted0 state). fold (adjusted1 state).
  rewrite (truediv_nonzero _ _ Hnz). reflexivity.
Qed.

Lemma price_pos_adjusted0 (state : PoolState.t) :
  0 < price_of state -> ~ adjusted0 state == 0.
Proof.
  unfold price_of. intros Hp E.
  assert (adjusted1 state / adjusted0 state == 0).
  { unfold Qdiv. rewrite E. cbn. ring. }
  lra.
Qed.

(** X13. Two rows of the same pair on different exchanges, the first the
    cheaper, and a threshold in effect of at least 1 bps: the call returns
    exactly one opportunity - buy on the first exchange at its price, sell
    on the second - when the spread [(sell - buy) / buy * 10000] exceeds
    the threshold by one part in a million or more, and nothing when it is
    below the threshold by that margin. *)
Theorem detect_two_rows (self : Analyzer.t) (block_number : Z)
    (min_spread_bps : option Q) (a c : PoolState.t) :
  Analyzer.Session self block_number = Ret [a; c] ->
  same_pair_other_exchange a c = true ->
  0 < price_of a -> price_of a < price_of c ->
  let spread := (price_of c - price_of a) / price_of a * 10000 in
  let threshold := Py.or_ min_spread_bps (Analyzer.min_spread_bps self) in
  1 <= threshold ->
  (threshold * 1.000001 <= spread ->
   exists o,
     detect_arbitrage_opportunities self block_number min_spread_bps
     = Ret [o] /\
     Opportunity.buy_exchange o = PoolState.exchange_name a /\
     Opportunity.sell_exchange o = PoolState.exchange_name c /\
     Opportunity.buy_price o = price_of a /\
     Opportunity.sell_price o = price_of c /\
     Opportunity.spread_bps o = spread) /\
  (spread * 1.000001 <= threshold ->
   detect_arbitrage_opportunities self block_number min_spread_bps = Ret []).
Proof.
  intros Hrows Hsame Hpa Hlt spread threshold Hone.
  assert (Hpc : 0 < price_of c) by lra.
  assert (Hspread : 0 < spread).
  { unfold spread.
    assert (0 < (price_of c - price_of a) / price_of a)
      by (apply div_pos; lra).
    lra. }
  unfold detect_arbitrage_opportunities. fold threshold.
  rewrite (detect_body_two_rows _ _ _ _ _ Hrows).
  rewrite (normalize_ok a (price_pos_adjusted0 a Hpa)),
    (normalize_ok c (price_pos_adjusted0 c Hpc)).
  cbn [Py.bind]. unfold compare_states.
  cbn [PoolState.row PoolState.price_token0_in_token1].
  rewrite Hsame.
  assert (Hne : Py.ne (price_of a) (price_of c) = true)
    by (apply py_ne_iff; lra).
  assert (Hl : Py.lt (price_of a) (price_of c) = true)
    by (now apply py_lt_iff).
  rewrite Hne, Hl, truediv_nonzero by lra.
  cbn [Py.bind]. fold spread. split.
  - intros Habove.
    assert (Hge : Py.ge spread threshold = true)
      by (apply py_ge_iff; lra).
    rewrite Hge. cbn.
    eexists. split; [reflexivity|]. cbn. repeat split.
  - intros Hbelow.
    assert (Hge : Py.ge spread threshold = false).
    { destruct (Py.ge spread threshold) eqn:E; [|reflexivity].
      apply py_ge_iff in E. lra. }
    rewrite Hge. reflexivity.
Qed.

Lemma detect_two_rows_witness :
  (exists o,
     detect_arbitrage_opportunities
       (init (constant_session [uniswap_pool; sushiswap_pool]) (Some 99))
       18000000 None = Ret [o] /\
     Opportunity.buy_exchange o = "Uniswap V2"%string) /\
  detect_arbitrage_opportunities
    (init (constant_session [uniswap_pool; sushiswap_pool]) (Some 101))
    18000000 None = Ret [].
Proof.
  assert (Hpa : 0 < price_of uniswap_pool)
    by (apply py_lt_iff; vm_compute; reflexivity).
  assert (Hlt : price_of uniswap_pool < price_of sushiswap_pool)
    by (apply py_lt_iff; vm_compute; reflexivity).
  split.
  - pose proof (detect_two_rows
                  (init (constant_session [uniswap_pool; sushiswap_pool])
                        (Some 99))
                  18000000 None uniswap_pool sushiswap_pool
                  eq_refl eq_refl Hpa Hlt) as Htwo.
    cbv zeta in Htwo. destruct Htwo as [Hemit _].
    + apply Qle_bool_imp_le. vm_compute. reflexivity.
    + destruct Hemit as (o & Ho & Hbuy & _).
      * apply Qle_bool_imp_le. vm_compute. reflexivity.
      * exists o. split; [exact Ho|exact Hbuy].
  - pose proof (detect_two_rows
                  (init (constant_session [uniswap_pool; sushiswap_pool])
                        (Some 101))
                  18000000 None uniswap_pool sushiswap_pool
                  eq_refl eq_refl Hpa Hlt) as Htwo.
    cbv zeta in Htwo. destruct Htwo as [_ Hdrop].
    + apply Qle_bool_imp_le. vm_compute. reflexivity.
    + apply Hdrop. apply Qle_bool_imp_le. vm_compute. reflexivity.
Defined.

(** ** A pool without quote reserve *)

Lemma in_two_split {A : Type} (x y : A) (l : list A) :
  In x l -> In y l -> x <> y ->
  (exists l1 l2, l = l1 ++ x :: l2 /\ In y l2) \/
  (exists l1 l2, l = l1 ++ y :: l2 /\ In x l2).
Proof.
  intros Hx Hy Hxy. induction l as [|a l IH]; [contradiction|].
  destruct Hx as [->|Hx], Hy as [->|Hy].
  - contradiction.
  - left. exists [], l. now split.
  - right. exists [], l. now split.
  - destruct (IH Hx Hy) as [(l1 & l2 & -> & H)|(l1 & l2 & -> & H)].
    + left. exists (a :: l1), l2. now split.
    + right. exists (a :: l1), l2. now split.
Qed.

(** Two states of one pair on two exchanges, one priced zero and the
    other not: their comparison divides by the zero price. *)
Lemma compare_states_zero_price (block_number : Z) (min_spread : Q)
    (n1 n2 : PoolState.normalized) (opportunities : list Opportunity.t) :
  same_pair_other_exchange (PoolState.row n1) (PoolState.row n2) = true ->
  (PoolState.price_token0_in_token1 n1 == 0 /\
   0 < PoolState.price_token0_in_token1 n2) \/
  (PoolState.price_token0_in_token1 n2 == 0 /\
   0 < PoolState.price_token0_in_token1 n1) ->
  compare_states block_number min_spread n1 n2 opportunities
  = Raise ZeroDivisionError.
Proof.
  intros Hsame Hzero. unfold compare_states. rewrite Hsame.
  assert (Hne : Py.ne (PoolState.price_token0_in_token1 n1)
                      (PoolState.price_token0_in_token1 n2) = true)
    by (apply py_ne_iff; lra).
  rewrite Hne. destruct Hzero as [[Hz Hp]|[Hz Hp]].
  - assert (Hl : Py.lt (PoolState.price_token0_in_token1 n1)
                       (PoolState.price_token0_in_token1 n2) = true)
      by (apply py_lt_iff; lra).
    rewrite Hl. now rewrite (truediv_zero _ _ Hz).
  - assert (Hl : Py.lt (PoolState.price_token0_in_token1 n1)
                       (PoolState.price_token0_in_token1 n2) = false).
    { destruct (Py.lt _ _) eqn:E; [|reflexivity].
      apply py_lt_iff in E. lra. }
    rewrite Hl. now rewrite (truediv_zero _ _ Hz).
Qed.

Lemma compare_with_rest_zero_price (block_number : Z) (min_spread : Q)
    (n1 n2 : PoolState.normalized) (rest : list PoolState.normalized) :
  In n2 rest ->
  (forall opportunities,
     compare_states block_number min_spread n1 n2 opportunities
     = Raise ZeroDivisionError) ->
  forall opportunities,
    exists e,
      compare_with_rest block_number min_spread n1 rest opportunities
      = Raise e.
Proof.
  intros Hin Hraise. induction rest as [|n rest IH]; [contradiction|].
  intros opportunities. cbn [compare_with_rest].
  destruct Hin as [->|Hin].
  - rewrite Hraise. cbn. eauto.
  - destruct (compare_states _ _ _ _ _) as [opps'|e]; cbn [Py.bind];
      [apply (IH Hin)|eauto].
Qed.

Lemma compare_all_zero_price (block_number : Z) (min_spread : Q)
    (n1 n2 : PoolState.normalized) (before after : list PoolState.normalized) :
  In n2 after ->
  (forall opportunities,
     compare_states block_number min_spread n1 n2 opportunities
     = Raise ZeroDivisionError) ->
  forall opportunities,
    exists e,
      compare_all block_number min_spread (before ++ n1 :: after)
                  opportunities = Raise e.
Proof.
  intros Hin Hraise. induction before as [|n before IH];
    intros opportunities; cbn [app compare_all].
  - destruct (compare_with_rest_zero_price block_number min_spread n1 n2
                after Hin Hraise opportunities) as [e ->].
    cbn. eauto.
  - destruct (compare_with_rest _ _ _ _ _) as [opps'|e]; cbn [Py.bind];
      [apply IH|eauto].
Qed.

Lemma zero_quote_price (state : PoolState.t) :
  PoolState.reserve1 state = 0%N -> price_of state == 0.
Proof.
  intros Hzero. unfold price_of, adjusted1. rewrite Hzero.
  unfold Qdiv. cbn. ring.
Qed.

(** X14. A row with [reserve1 = 0] empties the result of the whole block
    as soon as the block also has a row of the same pair on another
    exchange with a positive price: their comparison divides by the zero
    price, and the handler drops the pairs already found. *)
Theorem zero_quote_reserve_empties_block (self : Analyzer.t)
    (block_number : Z) (min_spread_bps : option Q)
    (pool_states : list PoolState.t) (empty other : PoolState.t) :
  Analyzer.Session self block_number = Ret pool_states ->
  In empty pool_states -> In other pool_states ->
  PoolState.reserve1 empty = 0%N ->
  same_pair_other_exchange empty other = true ->
  0 < price_of other ->
  detect_arbitrage_opportunities self block_number min_spread_bps = Ret [].
Proof.
  intros Hrows Hempty Hother Hzero Hsame Hpos.
  pose proof (zero_quote_price empty Hzero) as Hp0.
  unfold detect_arbitrage_opportunities, detect_body.
  rewrite Hrows. cbn [Py.bind].
  destruct (_ <? _)%nat; [reflexivity|].
  destruct (normalize_all pool_states) as [normalized|e] eqn:Hnorm;
    [|reflexivity].
  cbn [Py.bind].
  pose proof (normalize_all_spec _ _ Hnorm) as Hspec.
  apply normalize_all_rows in Hnorm. subst pool_states.
  rewrite Forall_forall in Hspec.
  apply in_map_iff in Hempty as (ne & Hne & Hine).
  apply in_map_iff in Hother as (no & Hno & Hino).
  destruct (Hspec ne Hine) as (_ & _ & Epe & _).
  destruct (Hspec no Hino) as (_ & _ & Epo & _).
  rewrite Hne in Epe. rewrite Hno in Epo.
  assert (Hdiff : ne <> no).
  { intros ->. rewrite Epe in Epo. rewrite <- Epo in Hpos. lra. }
  assert (Hraise1 : forall opportunities,
            compare_states block_number
              (Py.or_ min_spread_bps (Analyzer.min_spread_bps self))
              ne no opportunities = Raise ZeroDivisionError).
  { intros opps. apply compare_states_zero_price.
    - now rewrite Hne, Hno.
    - left. rewrite Epe, Epo. split; assumption. }
  assert (Hraise2 : forall opportunities,
            compare_states block_number
              (Py.or_ min_spread_bps (Analyzer.min_spread_bps self))
              no ne opportunities = Raise ZeroDivisionError).
  { intros opps. apply compare_states_zero_price.
    - now rewrite same_pair_other_exchange_sym, Hne, Hno.
    - right. rewrite Epe, Epo. split; assumption. }
  destruct (in_two_split ne no normalized Hine Hino Hdiff)
    as [(l1 & l2 & -> & H)|(l1 & l2 & -> & H)].
  - destruct (compare_all_zero_price _ _ ne no l1 l2 H Hraise1 [])
      as [e ->]. reflexivity.
  - destruct (compare_all_zero_price _ _ no ne l1 l2 H Hraise2 [])
      as [e ->]. reflexivity.
Qed.

Lemma zero_quote_reserve_empties_block_witness :
  detect_arbitrage_opportunities
    (init (constant_session [uniswap_pool; sushiswap_pool;
                             drained_quote_pool]) None)
    18000000 (Some 1) = Ret [].
Proof.
  apply (zero_quote_reserve_empties_block
           (init (constant_session [uniswap_pool; sushiswap_pool;
                                    drained_quote_pool]) None)
           18000000 (Some 1)
           [uniswap_pool; sushiswap_pool; drained_quote_pool]
           drained_quote_pool sushiswap_pool).
  - reflexivity.
  - right; right; left. reflexivity.
  - right; left. reflexivity.
  - reflexivity.
  - reflexivity.
  - apply py_lt_iff. vm_compute. reflexivity.
Defined.

(* ------------------------------------------------------------------ *)
(** * Further properties of the simulator                               *)
(* ------------------------------------------------------------------ *)

(** The remaining entries of the returned dictionary. *)
Lemma simulate_arbitrage_trade_entries (self : Analyzer.t)
    (opportunity : Opportunity.t) (trade_amount_base : option Q)
    (t : TradeSimulation.t) :
  simulate_arbitrage_trade self opportunity trade_amount_base = Ret (Some t) ->
  let legs := simulate_legs self opportunity trade_amount_base in
  TradeSimulation.trade_amount_base t = Legs.trade_amount_base legs /\
  TradeSimulation.buy_price t = Opportunity.buy_price opportunity /\
  TradeSimulation.sell_price t = Opportunity.sell_price opportunity /\
  TradeSimulation.spread_bps t = Opportunity.spread_bps opportunity /\
  TradeSimulation.roi_percentage t
    = (if Py.gt (Legs.cost_to_buy legs) 0
       then Legs.net_profit legs / Legs.cost_to_buy legs * 100
       else 0) /\
  exists buy_impact sell_impact,
    calculate_price_impact (Legs.trade_amount_base legs)
      (Opportunity.buy_reserve0 opportunity)
      (Opportunity.buy_reserve1 opportunity) = Ret buy_impact /\
    calculate_price_impact (Legs.amount_after_buy legs)
      (Opportunity.sell_reserve0 opportunity)
      (Opportunity.sell_reserve1 opportunity) = Ret sell_impact /\
    TradeSimulation.buy_price_impact_bps t = impact_bps_or_zero buy_impact /\
    TradeSimulation.sell_price_impact_bps t = impact_bps_or_zero sell_impact.
Proof.
  unfold simulate_arbitrage_trade, simulate_body.
  set (legs := simulate_legs self opportunity trade_amount_base).
  destruct (calculate_price_impact_returns (Legs.trade_amount_base legs)
              (Opportunity.buy_reserve0 opportunity)
              (Opportunity.buy_reserve1 opportunity)) as [r1 Hr1].
  destruct (calculate_price_impact_returns (Legs.amount_after_buy legs)
              (Opportunity.sell_reserve0 opportunity)
              (Opportunity.sell_reserve1 opportunity)) as [r2 Hr2].
  rewrite Hr1, Hr2. cbn [Py.bind].
  destruct (Py.gt (Legs.cost_to_buy legs) 0) eqn:Hc.
  - apply py_gt_iff in Hc.
    rewrite truediv_nonzero by lra. cbn [Py.bind try_except].
    intros H. injection H as <-. cbn.
    repeat split. exists r1, r2. repeat split.
  - cbn [Py.bind try_except].
    intros H. injection H as <-. cbn.
    repeat split. exists r1, r2. repeat split.
Qed.

(** X15. An explicit trade size of zero is kept as zero (it is not
    replaced by the default size): the trade returned has no gross
    profit, loses exactly the gas cost, and its ROI and both price impacts
    are 0 - the division by [cost_to_buy = 0] is not attempted. *)
Theorem simulate_zero_size (self : Analyzer.t) (opportunity : Opportunity.t) :
  exists t,
    simulate_arbitrage_trade self opportunity (Some 0) = Ret (Some t) /\
    TradeSimulation.trade_amount_base t = 0 /\
    TradeSimulation.gross_profit t == 0 /\
    TradeSimulation.net_profit t == - TradeSimulation.gas_cost_usd t /\
    TradeSimulation.roi_percentage t = 0 /\
    TradeSimulation.buy_price_impact_bps t == 0 /\
    TradeSimulation.sell_price_impact_bps t == 0.
Proof.
  destruct (simulate_arbitrage_trade_returns self opportunity (Some 0))
    as [t Ht].
  exists t. split; [assumption|].
  destruct (simulate_arbitrage_trade_fields _ _ _ _ Ht) as (Hg & Hgas & Hn & _).
  destruct (simulate_arbitrage_trade_entries _ _ _ _ Ht)
    as (Ha & _ & _ & _ & Hroi & bi & si & Hbi & Hsi & Hb & Hs).
  cbv zeta in Ha, Hroi, Hbi, Hsi.
  change (Legs.cost_to_buy (simulate_legs self opportunity (Some 0)))
    with (0 * Opportunity.buy_price opportunity) in Hroi.
  change (Legs.trade_amount_base (simulate_legs self opportunity (Some 0)))
    with 0 in Ha, Hbi.
  change (Legs.amount_after_buy (simulate_legs self opportunity (Some 0)))
    with (0 * (1 - get_exchange_fee self
                      (Opportunity.buy_exchange opportunity) / 10000))
    in Hsi.
  cbn in Hg, Hgas, Hn.
  assert (Hcost : Py.gt (0 * Opportunity.buy_price opportunity) 0 = false).
  { destruct (Py.gt _ _) eqn:E; [|reflexivity].
    apply py_gt_iff in E. lra. }
  rewrite Hcost in Hroi.
  assert (Himpact : forall a rin rout r,
            a == 0 -> calculate_price_impact a rin rout = Ret r ->
            impact_bps_or_zero r == 0).
  { intros a rin rout [r|] Ha0 Hr; [|reflexivity].
    apply calculate_price_impact_closed in Hr
      as (Hin & _ & Hsum & _ & _ & _ & _ & Himp & Hbps).
    cbn. rewrite Hbps, Himp, Ha0. field. lra. }
  repeat split; try assumption.
  - rewrite Hg. ring.
  - rewrite Hn, Hgas. ring.
  - rewrite Hb. apply (Himpact _ _ _ _ (Qeq_refl 0) Hbi).
  - rewrite Hs. eapply Himpact; [|exact Hsi]. ring.
Qed.

(** X16. When no size is given the trade takes a tenth of the smaller of
    the two base reserves: the amount is at most a tenth of each, and
    equal to a tenth of one of them. *)
Theorem simulate_default_size (self : Analyzer.t)
    (opportunity : Opportunity.t) :
  exists t,
    simulate_arbitrage_trade self opportunity None = Ret (Some t) /\
    TradeSimulation.trade_amount_base t
      <= Opportunity.buy_reserve0 opportunity * 0.1 /\
    TradeSimulation.trade_amount_base t
      <= Opportunity.sell_reserve0 opportunity * 0.1 /\
    (TradeSimulation.trade_amount_base t
       = Opportunity.buy_reserve0 opportunity * 0.1 \/
     TradeSimulation.trade_amount_base t
       = Opportunity.sell_reserve0 opportunity * 0.1).
Proof.
  destruct (simulate_arbitrage_trade_returns self opportunity None) as [t Ht].
  exists t. split; [assumption|].
  destruct (simulate_arbitrage_trade_entries _ _ _ _ Ht) as (Ha & _).
  cbn in Ha. rewrite Ha. unfold Py.min.
  destruct (Py.lt _ _) eqn:E.
  - apply py_lt_iff in E. repeat split; try lra. now right.
  - assert (~ Opportunity.sell_reserve0 opportunity * 0.1
              < Opportunity.buy_reserve0 opportunity * 0.1)
      by (intros Hc; apply py_lt_iff in Hc; congruence).
    repeat split; try lra. now left.
Qed.

(** X17. For a given size the profit ignores the pools: two
    opportunities with the same prices and exchanges give the same gross
    profit, gas cost, net profit, verdict and ROI, whatever their
    reserves. The price impact is reported and not used. *)
Theorem simulate_profit_ignores_reserves (self : Analyzer.t)
    (o1 o2 : Opportunity.t) (amount : Q) (t1 t2 : TradeSimulation.t) :
  Opportunity.buy_price o1 = Opportunity.buy_price o2 ->
  Opportunity.sell_price o1 = Opportunity.sell_price o2 ->
  Opportunity.buy_exchange o1 = Opportunity.buy_exchange o2 ->
  Opportunity.sell_exchange o1 = Opportunity.sell_exchange o2 ->
  simulate_arbitrage_trade self o1 (Some amount) = Ret (Some t1) ->
  simulate_arbitrage_trade self o2 (Some amount) = Ret (Some t2) ->
  TradeSimulation.gross_profit t1 = TradeSimulation.gross_profit t2 /\
  TradeSimulation.gas_cost_usd t1 = TradeSimulation.gas_cost_usd t2 /\
  TradeSimulation.net_profit t1 = TradeSimulation.net_profit t2 /\
  TradeSimulation.is_profitable t1 = TradeSimulation.is_profitable t2 /\
  TradeSimulation.roi_percentage t1 = TradeSimulation.roi_percentage t2.
Proof.
  intros Hbuy Hsell Hbx Hsx H1 H2.
  assert (Hlegs : simulate_legs self o1 (Some amount)
                  = simulate_legs self o2 (Some amount)).
  { unfold simulate_legs. now rewrite Hbuy, Hsell, Hbx, Hsx. }
  destruct (simulate_arbitrage_trade_fields _ _ _ _ H1) as (Hg1 & Hc1 & Hn1 & Hp1).
  destruct (simulate_arbitrage_trade_fields _ _ _ _ H2) as (Hg2 & Hc2 & Hn2 & Hp2).
  destruct (simulate_arbitrage_trade_entries _ _ _ _ H1)
    as (_ & _ & _ & _ & Hr1 & _).
  destruct (simulate_arbitrage_trade_entries _ _ _ _ H2)
    as (_ & _ & _ & _ & Hr2 & _).
  cbv zeta in Hr1, Hr2.
  rewrite Hg1, Hc1, Hn1, Hp1, Hr1, Hg2, Hc2, Hn2, Hp2, Hr2, Hlegs.
  repeat split.
Qed.

Lemma simulate_profit_ignores_reserves_witness :
  exists t1 t2,
    simulate_arbitrage_trade (init (constant_session []) None)
      (sample_opportunity 18000000) (Some 100) = Ret (Some t1) /\
    simulate_arbitrage_trade (init (constant_session []) None)
      (shallow_opportunity 18000000) (Some 100) = Ret (Some t2) /\
    TradeSimulation.net_profit t1 = TradeSimulation.net_profit t2 /\
    TradeSimulation.buy_price_impact_bps t2
      < TradeSimulation.buy_price_impact_bps t1.
Proof.
  eexists. eexists.
  split; [vm_compute; reflexivity|]. split; [vm_compute; reflexivity|].
  split.
  - eapply (simulate_profit_ignores_reserves
              (init (constant_session []) None)
              (sample_opportunity 18000000) (shallow_opportunity 18000000)
              100);
      vm_compute; reflexivity.
  - apply py_lt_iff. vm_compute. reflexivity.
Defined.

(** X19. With the fees of the constructor (30 bps a leg) and a gas cost
    that is not negative, an opportunity whose sell price is at most 0.6%
    above a non-negative buy price - a spread of 60 bps or less - is never
    reported profitable, whatever non-negative size is traded. *)
Theorem simulate_small_spread_unprofitable
    (session : Z -> outcome (list PoolState.t)) (min_spread_bps : option Q)
    (opportunity : Opportunity.t) (trade_amount_base : option Q)
    (t : TradeSimulation.t) :
  simulate_arbitrage_trade (init session min_spread_bps) opportunity
                           trade_amount_base = Ret (Some t) ->
  0 <= TradeSimulation.trade_amount_base t ->
  0 <= Opportunity.buy_price opportunity ->
  Opportunity.sell_price opportunity
    <= Opportunity.buy_price opportunity * 1.006 ->
  TradeSimulation.is_profitable t = false /\
  TradeSimulation.net_profit t <= -20.
Proof.
  intros Ht Hamount Hbuy Hsell.
  destruct (simulate_arbitrage_trade_fields _ _ _ _ Ht) as (_ & Hgas & Hn & Hp).
  destruct (simulate_arbitrage_trade_entries _ _ _ _ Ht) as (Ha & _).
  cbv zeta in Ha.
  assert (Hnet : TradeSimulation.net_profit t
                 == TradeSimulation.trade_amount_base t
                    * (0.997 * 0.997 * Opportunity.sell_price opportunity
                       - Opportunity.buy_price opportunity) - 20).
  { rewrite Hn, Ha. unfold simulate_legs. cbn.
    rewrite !get_exchange_fee_init. unfold calculate_gas_cost. cbn. field. }
  set (a := TradeSimulation.trade_amount_base t) in *.
  assert (Hle : TradeSimulation.net_profit t <= -20).
  { rewrite Hnet.
    assert (0.997 * 0.997 * Opportunity.sell_price opportunity
            - Opportunity.buy_price opportunity <= 0) by lra.
    nra. }
  split; [|assumption].
  rewrite Hp, <- Hn.
  destruct (Py.gt (TradeSimulation.net_profit t) 0) eqn:E; [|reflexivity].
  apply py_gt_iff in E. lra.
Qed.

Lemma simulate_small_spread_unprofitable_witness :
  exists t,
    simulate_arbitrage_trade (init (constant_session []) None)
      (narrow_opportunity 18000000) None = Ret (Some t) /\
    TradeSimulation.trade_amount_base t == 100 /\
    TradeSimulation.is_profitable t = false.
Proof.
  eexists. split; [vm_compute; reflexivity|].
  split; [vm_compute; reflexivity|].
  eapply (simulate_small_spread_unprofitable (constant_session []) None
            (narrow_opportunity 18000000) None).
  - vm_compute. reflexivity.
  - apply Qle_bool_imp_le. vm_compute. reflexivity.
  - apply Qle_bool_imp_le. vm_compute. reflexivity.
  - apply Qle_bool_imp_le. vm_compute. reflexivity.
Defined.

(** X20. A leg whose pool has a zero reserve has no defined impact: the
    trade is still returned and the impact of that leg is recorded
    as 0. *)
Theorem simulate_undefined_impact_is_zero (self : Analyzer.t)
    (opportunity : Opportunity.t) (trade_amount_base : option Q) :
  exists t,
    simulate_arbitrage_trade self opportunity trade_amount_base
    = Ret (Some t) /\
    (Opportunity.buy_reserve0 opportunity == 0 \/
     Opportunity.buy_reserve1 opportunity == 0 ->
     TradeSimulation.buy_price_impact_bps t = 0) /\
    (Opportunity.sell_reserve0 opportunity == 0 \/
     Opportunity.sell_reserve1 opportunity == 0 ->
     TradeSimulation.sell_price_impact_bps t = 0).
Proof.
  destruct (simulate_arbitrage_trade_returns self opportunity
              trade_amount_base) as [t Ht].
  exists t. split; [assumption|].
  destruct (simulate_arbitrage_trade_entries _ _ _ _ Ht)
    as (_ & _ & _ & _ & _ & bi & si & Hbi & Hsi & Hb & Hs).
  split; intros Hzero.
  - rewrite (calculate_price_impact_zero_reserve_guard _ _ _ Hzero) in Hbi.
    injection Hbi as <-. exact Hb.
  - rewrite (calculate_price_impact_zero_reserve_guard _ _ _ Hzero) in Hsi.
    injection Hsi as <-. exact Hs.
Qed.

Lemma simulate_undefined_impact_is_zero_witness :
  exists t,
    simulate_arbitrage_trade (init (constant_session []) None)
      (one_sided_opportunity 18000000) (Some 1) = Ret (Some t) /\
    TradeSimulation.buy_price_impact_bps t = 0 /\
    TradeSimulation.sell_price_impact_bps t < 0.
Proof.
  destruct (simulate_undefined_impact_is_zero
              (init (constant_session []) None)
              (one_sided_opportunity 18000000) (Some 1))
    as (t & Ht & Hbuy & _).
  exists t. split; [exact Ht|]. split.
  - apply Hbuy. left. reflexivity.
  - vm_compute in Ht. injection Ht as <-.
    apply py_lt_iff. vm_compute. reflexivity.
Defined.

(** An amount of at most a tenth of the input reserve moves the price by
    less than 1736 basis points. *)
Lemma calculate_price_impact_tenth (amount_in reserve_in reserve_out : Q) :
  0 < amount_in -> amount_in <= reserve_in * 0.1 -> 0 < reserve_out ->
  exists r,
    calculate_price_impact amount_in reserve_in reserve_out = Ret (Some r) /\
    -1736 <= PriceImpact.price_impact_bps r <= 0.
Proof.
  intros Ha Hle Hout.
  assert (Hin : 0 < reserve_in) by lra.
  destruct (calculate_price_impact_positive amount_in reserve_in reserve_out
              Ha Hin Hout) as (r & Hr & _ & _ & _ & Hhigh).
  exists r. split; [exact Hr|]. split; [|lra].
  apply calculate_price_impact_closed in Hr
    as (_ & _ & _ & _ & _ & _ & _ & Himp & Hbps).
  set (s := reserve_in + amount_in) in *.
  assert (Hs : 0 < s) by (unfold s; lra).
  assert (Hq : (10 # 11) <= reserve_in / s).
  { apply Qle_shift_div_l; [assumption|]. unfold s. lra. }
  assert (Hsq : reserve_in * reserve_in / (s * s)
                == (reserve_in / s) * (reserve_in / s)) by (field; lra).
  rewrite Hbps, Himp, Hsq.
  set (q := reserve_in / s) in *.
  assert ((100 # 121) <= q * q) by nra.
  lra.
Qed.

(** X21. Detection and simulation compose: every opportunity the
    detector returns, simulated with the default size by an analyzer with
    the constructor's fees, gives a trade of positive size and positive
    cost, so its ROI is [net_profit / cost_to_buy * 100], and the default
    size keeps the impact of each leg between -1736 and 0 bps. *)
Theorem detected_opportunity_simulates
    (session : Z -> outcome (list PoolState.t)) (stored : option Q)
    (block_number : Z) (min_spread_bps : option Q)
    (opportunities : list Opportunity.t) (o : Opportunity.t) :
  detect_arbitrage_opportunities (init session stored) block_number
                                 min_spread_bps = Ret opportunities ->
  In o opportunities ->
  exists t,
    simulate_arbitrage_trade (init session stored) o None = Ret (Some t) /\
    0 < TradeSimulation.trade_amount_base t /\
    0 < TradeSimulation.trade_amount_base t * TradeSimulation.buy_price t /\
    TradeSimulation.roi_percentage t
      == TradeSimulation.net_profit t
         / (TradeSimulation.trade_amount_base t * TradeSimulation.buy_price t)
         * 100 /\
    -1736 <= TradeSimulation.buy_price_impact_bps t <= 0 /\
    -1736 <= TradeSimulation.sell_price_impact_bps t <= 0.
Proof.
  intros Hdetect Hin.
  pose proof (detect_arbitrage_opportunities_coherent _ _ _ _ Hdetect) as Hco.
  pose proof (detect_arbitrage_opportunities_genuine _ _ _ _ Hdetect) as Hge.
  rewrite Forall_forall in Hco, Hge.
  destruct (Hco o Hin) as (_ & _ & Hb0 & Hb1 & Hs0 & Hs1 & _).
  destruct (Hge o Hin) as (Hbuy & _).
  set (self := init session stored) in *.
  destruct (simulate_arbitrage_trade_returns self o None) as [t Ht].
  exists t. split; [assumption|].
  destruct (simulate_arbitrage_trade_fields _ _ _ _ Ht) as (_ & _ & Hn & _).
  destruct (simulate_arbitrage_trade_entries _ _ _ _ Ht)
    as (Ha & Hbp & _ & _ & Hroi & bi & si & Hbi & Hsi & Hbimp & Hsimp).
  cbv zeta in Ha, Hroi, Hbi, Hsi.
  set (legs := simulate_legs self o None) in *.
  assert (Hamount : 0 < Legs.trade_amount_base legs
                    /\ Legs.trade_amount_base legs
                       <= Opportunity.buy_reserve0 o * 0.1
                    /\ Legs.trade_amount_base legs
                       <= Opportunity.sell_reserve0 o * 0.1).
  { unfold legs, simulate_legs. cbn. unfold Py.min.
    destruct (Py.lt _ _) eqn:E.
    - apply py_lt_iff in E. lra.
    - assert (~ Opportunity.sell_reserve0 o * 0.1
                < Opportunity.buy_reserve0 o * 0.1)
        by (intros Hc; apply py_lt_iff in Hc; congruence).
      lra. }
  destruct Hamount as (Hamount & Hbuy_tenth & Hsell_tenth).
  assert (Hafter : 0 < Legs.amount_after_buy legs
                   /\ Legs.amount_after_buy legs
                      <= Opportunity.sell_reserve0 o * 0.1).
  { assert (E : Legs.amount_after_buy legs
                = Legs.trade_amount_base legs * (1 - 30 / 10000)).
    { unfold legs, simulate_legs, self. cbn.
      now rewrite get_exchange_fee_init. }
    rewrite E.
    assert (0 < 1 - 30 / 10000 <= 1).
    { split; [apply py_lt_iff|apply Qle_bool_imp_le];
        vm_compute; reflexivity. }
    nra. }
  destruct Hafter as (Hafter & Hafter_tenth).
  assert (Hcost : 0 < Legs.cost_to_buy legs).
  { change (0 < Legs.trade_amount_base legs * Opportunity.buy_price o).
    nra. }
  destruct (calculate_price_impact_tenth _ _ _ Hamount Hbuy_tenth Hb1)
    as (rb & Hrb & Hbbps).
  destruct (calculate_price_impact_tenth _ _ _ Hafter Hafter_tenth Hs1)
    as (rs & Hrs & Hsbps).
  rewrite Hrb in Hbi. injection Hbi as <-.
  rewrite Hrs in Hsi. injection Hsi as <-.
  rewrite Ha, Hbp, Hbimp, Hsimp, Hroi, Hn.
  change (Legs.trade_amount_base legs * Opportunity.buy_price o)
    with (Legs.cost_to_buy legs).
  assert (Hgt : Py.gt (Legs.cost_to_buy legs) 0 = true)
    by (now apply py_gt_iff).
  rewrite Hgt. cbn [impact_bps_or_zero].
  repeat split; try assumption; try reflexivity; apply Hbbps || apply Hsbps.
Qed.

Lemma detected_opportunity_simulates_witness :
  exists o t,
    detect_arbitrage_opportunities
      (init (constant_session [uniswap_pool; sushiswap_pool]) None)
      18000000 None = Ret [o] /\
    simulate_arbitrage_trade
      (init (constant_session [uniswap_pool; sushiswap_pool]) None) o None
    = Ret (Some t) /\
    0 < TradeSimulation.trade_amount_base t /\
    -1736 <= TradeSimulation.buy_price_impact_bps t <= 0.
Proof.
  eexists.
  edestruct (detected_opportunity_simulates
               (constant_session [uniswap_pool; sushiswap_pool]) None
               18000000 None) as (t & Ht & Hsize & _ & _ & Hbuy & _).
  - vm_compute. reflexivity.
  - left. reflexivity.
  - exists t. split; [vm_compute; reflexivity|].
    split; [exact Ht|]. split; [exact Hsize|exact Hbuy].
Defined.

(* ------------------------------------------------------------------ *)
(** * Further properties of the runner                                  *)
(* ------------------------------------------------------------------ *)

(** Applying [or] twice is applying it once. *)
Lemma or_idempotent (x : option Q) (default : Q) :
  Py.or_ (Some (Py.or_ x default)) default = Py.or_ x default.
Proof.
  destruct x as [v|]; cbn.
  - destruct (Qeq_bool v 0) eqn:E; [|now rewrite E].
    now destruct (Qeq_bool default 0).
  - now destruct (Qeq_bool default 0).
Qed.

Lemma simulated_flat_map {A : Type}
    (simulate : Opportunity.t -> outcome (option TradeSimulation.t))
    (f : A -> list Opportunity.t) (l : list A) :
  simulated simulate (flat_map f l)
  = flat_map (fun x => simulated simulate (f x)) l.
Proof.
  unfold simulated. induction l as [|x l IH]; [reflexivity|].
  cbn [flat_map]. now rewrite flat_map_app, IH.
Qed.

Lemma simulated_pairs
    (simulate : Opportunity.t -> outcome (option TradeSimulation.t))
    (opportunities : list Opportunity.t) :
  (forall o, exists t, simulate o = Ret (Some t)) ->
  Forall2 (fun o t => simulate o = Ret (Some t)) opportunities
          (simulated simulate opportunities).
Proof.
  intros Hsim. induction opportunities as [|o rest IH]; [constructor|].
  unfold simulated. cbn [flat_map].
  destruct (Hsim o) as [t Ht]. rewrite Ht. cbn [app].
  constructor; assumption.
Qed.

(** X22. The frames of [analyze_historical_opportunities] are what
    direct calls would give: the opportunities are those of
    [detect_arbitrage_opportunities] called with the caller's own
    threshold argument at each block of [from_block .. to_block], in
    order, and the trades frame holds, row for row, the simulation of each
    opportunity with the default size. *)
Theorem analyze_frames (self : Analyzer.t) (from_block to_block : Z)
    (min_spread_bps : option Q) :
  let result :=
    analyze_historical_opportunities self from_block to_block min_spread_bps in
  Pandas.rows (fst result)
    = flat_map (fun b => found (detect_arbitrage_opportunities
                                  self b min_spread_bps))
               (Py.range from_block (to_block + 1)) /\
  Forall2 (fun o t => simulate_arbitrage_trade self o None = Ret (Some t))
          (Pandas.rows (fst result)) (Pandas.rows (snd result)).
Proof.
  cbv zeta.
  destruct (analyze_historical_opportunities_rows self from_block to_block
              min_spread_bps) as [Hopps Htrades].
  cbv zeta in Hopps, Htrades.
  assert (Hsame : forall b,
    match detect_arbitrage_opportunities self b
            (Some (Py.or_ min_spread_bps (Analyzer.min_spread_bps self))) with
    | Ret opportunities => opportunities
    | Raise _ => []
    end = found (detect_arbitrage_opportunities self b min_spread_bps)).
  { intros b. unfold detect_arbitrage_opportunities.
    now rewrite or_idempotent. }
  split.
  - rewrite Hopps. apply flat_map_ext. exact Hsame.
  - rewrite Htrades, Hopps, <- simulated_flat_map.
    apply simulated_pairs. intros o.
    apply simulate_arbitrage_trade_returns.
Qed.

(** X23. An empty block range ([to_block < from_block]) gives two frames
    without rows and without columns, and the summary of these two frames
    is the empty dictionary. *)
Theorem analyze_empty_range (self : Analyzer.t) (from_block to_block : Z)
    (min_spread_bps : option Q) :
  (to_block < from_block)%Z ->
  let result :=
    analyze_historical_opportunities self from_block to_block min_spread_bps in
  result = (Pandas.mk [] [], Pandas.mk [] []) /\
  get_opportunity_summary (fst result) (snd result) = Ret [].
Proof.
  intros Hlt. cbv zeta.
  assert (Hres : analyze_historical_opportunities self from_block to_block
                   min_spread_bps = (Pandas.mk [] [], Pandas.mk [] [])).
  { unfold analyze_historical_opportunities, analyze_loop, Py.range.
    replace (Z.to_nat (to_block + 1 - from_block)) with 0%nat by lia.
    reflexivity. }
  rewrite Hres. split; reflexivity.
Qed.

Lemma analyze_empty_range_witness :
  analyze_historical_opportunities
    (init (constant_session [uniswap_pool; sushiswap_pool]) None)
    18000100 18000000 None
  = (Pandas.mk [] [], Pandas.mk [] []).
Proof.
  apply (analyze_empty_range
           (init (constant_session [uniswap_pool; sushiswap_pool]) None)
           18000100 18000000 None).
  lia.
Defined.

(** X24. The progress bar cannot change the result: whatever the
    progress update does, even raise, the two frames are the same. *)
Theorem analyze_loop_ignores_progress
    (detect : Z -> Q -> outcome (list Opportunity.t))
    (simulate : Opportunity.t -> outcome (option TradeSimulation.t))
    (progress1 progress2 : Z -> outcome unit)
    (from_block to_block : Z) (min_spread : Q) :
  analyze_loop detect simulate progress1 from_block to_block min_spread
  = analyze_loop detect simulate progress2 from_block to_block min_spread.
Proof.
  unfold analyze_loop. now rewrite !fold_block_step.
Qed.

Lemma kept_until_failure
    (simulate : Opportunity.t -> outcome (option TradeSimulation.t))
    (before after : list Opportunity.t) (o : Opportunity.t) (e : exn) :
  Forall (fun x => ~ raises (simulate x)) before ->
  simulate o = Raise e ->
  kept simulate (before ++ o :: after)
  = (before ++ [o], simulated simulate before).
Proof.
  intros Hbefore Hfail.
  induction Hbefore as [|x before Hx _ IH]; cbn.
  - now rewrite Hfail.
  - rewrite IH. unfold simulated. cbn.
    destruct (simulate x) as [[trade|]|ex]; try reflexivity.
    exfalso. apply Hx. now exists ex.
Qed.

(** X25. When the simulation of an opportunity raises, the loop abandons
    the rest of that block but keeps what it had appended: the
    opportunities up to and including the failing one stay in the
    opportunities frame, with the trades of those before it, and the
    opportunities after it are lost. *)
Theorem analyze_loop_keeps_partial_block
    (detect : Z -> Q -> outcome (list Opportunity.t))
    (simulate : Opportunity.t -> outcome (option TradeSimulation.t))
    (progress_update : Z -> outcome unit)
    (block_number : Z) (min_spread : Q)
    (before after : list Opportunity.t) (o : Opportunity.t) (e : exn) :
  detect block_number min_spread = Ret (before ++ o :: after) ->
  Forall (fun x => ~ raises (simulate x)) before ->
  simulate o = Raise e ->
  let result :=
    analyze_loop detect simulate progress_update block_number block_number
                 min_spread in
  Pandas.rows (fst result) = before ++ [o] /\
  Pandas.rows (snd result) = simulated simulate before.
Proof.
  intros Hdetect Hbefore Hfail. cbv zeta.
  unfold analyze_loop. rewrite fold_block_step.
  assert (Hrange : Py.range block_number (block_number + 1) = [block_number]).
  { unfold Py.range.
    replace (Z.to_nat (block_number + 1 - block_number)) with 1%nat by lia.
    cbn. f_equal. lia. }
  rewrite Hrange. cbn [flat_map].
  unfold block_contribution. rewrite Hdetect.
  rewrite (kept_until_failure simulate before after o e Hbefore Hfail).
  cbn. now rewrite !app_nil_r.
Qed.

Lemma analyze_loop_keeps_partial_block_witness :
  let self := init (constant_session []) None in
  let result :=
    analyze_loop
      (fixed_detect [sample_opportunity 1; sample_opportunity 2;
                     sample_opportunity 3])
      (flaky_simulate self) (fun _ => Ret tt) 7 7 50 in
  Pandas.rows (fst result) = [sample_opportunity 1; sample_opportunity 2] /\
  List.length (Pandas.rows (snd result)) = 1%nat.
Proof.
  intros self result.
  destruct (analyze_loop_keeps_partial_block
              (fixed_detect [sample_opportunity 1; sample_opportunity 2;
                             sample_opportunity 3])
              (flaky_simulate self) (fun _ => Ret tt) 7 50
              [sample_opportunity 1] [sample_opportunity 3]
              (sample_opportunity 2) (KeyError "sell_price"))
    as [Hopps Htrades].
  - reflexivity.
  - constructor; [|constructor]. intros [e He].
    vm_compute in He. discriminate He.
  - reflexivity.
  - fold result in Hopps, Htrades. split.
    + rewrite Hopps. reflexivity.
    + rewrite Htrades. vm_compute. reflexivity.
Defined.

(* ------------------------------------------------------------------ *)
(** * Further properties of the summary                                 *)
(* ------------------------------------------------------------------ *)

Lemma count_selected {R : Type} (rows : list R) (mask : list bool) :
  (List.length (map fst (filter snd (combine rows mask)))
   <= List.length rows)%nat.
Proof.
  rewrite length_map.
  etransitivity; [apply filter_length_le|].
  rewrite length_combine. apply Nat.le_min_l.
Qed.

(** The summary of a frame of trades that has at least one row. *)
Lemma summary_body_of_trades (opportunities : list Opportunity.t)
    (t : TradeSimulation.t) (ts : list TradeSimulation.t) :
  let trades := t :: ts in
  let df_trades := Pandas.from_records TradeSimulation.keys trades in
  let profitable :=
    Pandas.len (Pandas.select df_trades
                  (map (Bool.eqb true)
                       (map TradeSimulation.is_profitable trades))) in
  let spreads := map Opportunity.spread_bps opportunities in
  summary_body (Pandas.from_records Opportunity.keys opportunities) df_trades
  = Ret [("total_opportunities"%string,
          Pandas.Num (inject_Z (Z.of_nat (List.length opportunities))));
         ("total_trades"%string,
          Pandas.Num (inject_Z (Z.of_nat (List.length trades))));
         ("profitable_trades"%string, Pandas.Num (inject_Z profitable));
         ("profitable_rate"%string,
          Pandas.Num (inject_Z profitable
                      / inject_Z (Z.of_nat (List.length trades))));
         ("avg_spread_bps"%string,
          match opportunities with
          | [] => Pandas.Num 0
          | _ :: _ => Pandas.mean spreads
          end);
         ("max_spread_bps"%string,
          match opportunities with
          | [] => Pandas.Num 0
          | _ :: _ => Pandas.max spreads
          end);
         ("total_gross_profit"%string,
          Pandas.sum (map TradeSimulation.gross_profit trades));
         ("total_net_profit"%string,
          Pandas.sum (map TradeSimulation.net_profit trades));
         ("total_gas_costs"%string,
          Pandas.sum (map TradeSimulation.gas_cost_usd trades));
         ("avg_roi"%string,
          Pandas.mean (map TradeSimulation.roi_percentage trades))].
Proof.
  cbv zeta. unfold summary_body, count_profitable, reduce_or_zero.
  assert (Hlen : (Pandas.len (Pandas.from_records TradeSimulation.keys
                                (t :: ts)) >? 0)%Z = true).
  { unfold Pandas.len. cbn [Pandas.rows Pandas.from_records List.length].
    apply Z.gtb_lt. lia. }
  rewrite Hlen.
  assert (Hnz : ~ inject_Z (Pandas.len (Pandas.from_records
                                          TradeSimulation.keys (t :: ts)))
                  == 0).
  { unfold Pandas.len. cbn [Pandas.rows Pandas.from_records List.length].
    change 0 with (inject_Z 0). rewrite inject_Z_injective. lia. }
  change (Pandas.getitem (Pandas.from_records TradeSimulation.keys (t :: ts))
            "is_profitable" TradeSimulation.is_profitable)
    with (Ret (map TradeSimulation.is_profitable (t :: ts))).
  cbn [Py.bind]. rewrite (truediv_nonzero _ _ Hnz). cbn [Py.bind].
  destruct opportunities as [|o os]; reflexivity.
Qed.

(** X26. For a trades frame with at least one row the summary is the
    full dictionary: its ten keys in order, no not-a-number value, the two
    counts equal to the numbers of rows, and a profitable rate between 0
    and 1 equal to [profitable_trades / total_trades]. *)
Theorem summary_of_trades (opportunities : list Opportunity.t)
    (t : TradeSimulation.t) (ts : list TradeSimulation.t) :
  exists s profitable,
    get_opportunity_summary
      (Pandas.from_records Opportunity.keys opportunities)
      (Pandas.from_records TradeSimulation.keys (t :: ts)) = Ret s /\
    map fst s
      = ["total_opportunities"; "total_trades"; "profitable_trades";
         "profitable_rate"; "avg_spread_bps"; "max_spread_bps";
         "total_gross_profit"; "total_net_profit"; "total_gas_costs";
         "avg_roi"]%string /\
    Forall (fun item => snd item <> Pandas.NaN) s /\
    Py.dict_lookup s "total_opportunities"
      = Some (Pandas.Num (inject_Z (Z.of_nat (List.length opportunities)))) /\
    Py.dict_lookup s "total_trades"
      = Some (Pandas.Num (inject_Z (Z.of_nat (List.length (t :: ts))))) /\
    Py.dict_lookup s "profitable_trades"
      = Some (Pandas.Num (inject_Z profitable)) /\
    Py.dict_lookup s "profitable_rate"
      = Some (Pandas.Num (inject_Z profitable
                          / inject_Z (Z.of_nat (List.length (t :: ts))))) /\
    (0 <= profitable <= Z.of_nat (List.length (t :: ts)))%Z /\
    0 <= inject_Z profitable / inject_Z (Z.of_nat (List.length (t :: ts)))
      <= 1.
Proof.
  pose proof (summary_body_of_trades opportunities t ts) as Hbody.
  cbv zeta in Hbody.
  set (profitable :=
         Pandas.len (Pandas.select
                       (Pandas.from_records TradeSimulation.keys (t :: ts))
                       (map (Bool.eqb true)
                            (map TradeSimulation.is_profitable (t :: ts)))))
    in *.
  assert (Hcount : (0 <= profitable <= Z.of_nat (List.length (t :: ts)))%Z).
  { unfold profitable, Pandas.len, Pandas.select.
    cbn [Pandas.rows Pandas.from_records]. split; [lia|].
    apply Nat2Z.inj_le. apply count_selected. }
  eexists. exists profitable.
  split; [unfold get_opportunity_summary; rewrite Hbody; reflexivity|].
  split; [reflexivity|]. split.
  - repeat constructor; cbn; try discriminate;
      destruct opportunities; discriminate.
  - repeat split; try reflexivity; try apply Hcount.
    + apply div_nonneg.
      * change 0 with (inject_Z 0). rewrite <- Zle_Qle. apply Hcount.
      * change 0 with (inject_Z 0). rewrite <- Zlt_Qlt. cbn. lia.
    + apply Qle_shift_div_r.
      * change 0 with (inject_Z 0). rewrite <- Zlt_Qlt. cbn. lia.
      * rewrite Qmult_1_l, <- Zle_Qle. apply Hcount.
Qed.

(** The two frames of the runner are built from their rows, and the
    rows are paired. *)
Lemma analyze_frames_paired (self : Analyzer.t) (from_block to_block : Z)
    (min_spread_bps : option Q) :
  let result :=
    analyze_historical_opportunities self from_block to_block min_spread_bps in
  Forall2 (fun o t => simulate_arbitrage_trade self o None = Ret (Some t))
          (Pandas.rows (fst result)) (Pandas.rows (snd result)) /\
  result = (Pandas.from_records Opportunity.keys (Pandas.rows (fst result)),
            Pandas.from_records TradeSimulation.keys
              (Pandas.rows (snd result))).
Proof.
  cbv zeta. split; [|reflexivity].
  destruct (analyze_historical_opportunities_rows self from_block to_block
              min_spread_bps) as [Hopps Htrades].
  cbv zeta in Hopps, Htrades.
  rewrite Htrades, Hopps, <- simulated_flat_map.
  apply simulated_pairs. intros o.
  apply simulate_arbitrage_trade_returns.
Qed.

(** X28. The runner and the summary compose: whenever the analysis of a
    block range finds at least one opportunity, the summary of its two
    frames is the full dictionary of ten entries without not-a-number
    values, and it counts as many trades as opportunities. *)
Theorem analyze_then_summarize (self : Analyzer.t) (from_block to_block : Z)
    (min_spread_bps : option Q) :
  let result :=
    analyze_historical_opportunities self from_block to_block min_spread_bps in
  Pandas.rows (fst result) <> [] ->
  exists s count,
    get_opportunity_summary (fst result) (snd result) = Ret s /\
    map fst s
      = ["total_opportunities"; "total_trades"; "profitable_trades";
         "profitable_rate"; "avg_spread_bps"; "max_spread_bps";
         "total_gross_profit"; "total_net_profit"; "total_gas_costs";
         "avg_roi"]%string /\
    Forall (fun item => snd item <> Pandas.NaN) s /\
    Py.dict_lookup s "total_opportunities" = Some (Pandas.Num count) /\
    Py.dict_lookup s "total_trades" = Some (Pandas.Num count) /\
    count
      = inject_Z (Z.of_nat (List.length (Pandas.rows (fst result)))).
Proof.
  cbv zeta. intros Hfound.
  destruct (analyze_frames_paired self from_block to_block min_spread_bps)
    as [Hpairs Hframes].
  set (result := analyze_historical_opportunities self from_block to_block
                   min_spread_bps) in *.
  rewrite Hframes.
  destruct (Pandas.rows (fst result)) as [|o os] eqn:Hos; [contradiction|].
  destruct (Pandas.rows (snd result)) as [|t ts] eqn:Hts;
    [inversion Hpairs|].
  pose proof (Forall2_length Hpairs) as Hlen.
  pose proof (summary_body_of_trades (o :: os) t ts) as Hbody.
  cbv zeta in Hbody. cbn [fst snd].
  eexists. eexists.
  split; [unfold get_opportunity_summary; rewrite Hbody; reflexivity|].
  split; [reflexivity|].
  split; [repeat constructor; cbn; discriminate|].
  split; [reflexivity|].
  split; [cbn in Hlen; injection Hlen as Hlen; cbn; now rewrite Hlen|].
  reflexivity.
Qed.

Lemma analyze_then_summarize_witness :
  let result :=
    analyze_historical_opportunities
      (init (constant_session [uniswap_pool; sushiswap_pool]) None) 1 2 None in
  exists s,
    get_opportunity_summary (fst result) (snd result) = Ret s /\
    Py.dict_lookup s "total_opportunities" = Some (Pandas.Num 2) /\
    Py.dict_lookup s "total_trades" = Some (Pandas.Num 2).
Proof.
  intros result.
  destruct (analyze_then_summarize
              (init (constant_session [uniswap_pool; sushiswap_pool]) None)
              1 2 None)
    as (s & count & Hs & _ & _ & Hopps & Htrades & Hcount).
  - vm_compute. discriminate.
  - fold result in Hs, Hcount. exists s. split; [exact Hs|].
    assert (Htwo : count = 2) by (rewrite Hcount; vm_compute; reflexivity).
    rewrite Htwo in Hopps, Htrades. split; assumption.
Defined.
